(** * Notice-board service: the Broadcast model, the broadcast routes and login

    A shallow embedding of [src/Broadcast.js] (the Mongoose schema and its
    pre-save hook), of the broadcast router (list, read, create, update,
    delete) and of the login handler of [src/routes/routes/auth.js].

    Conventions of the embedding.
    - Strings are [string]s of 8-bit characters; case folding and trimming
      are the ASCII ones.
    - A JavaScript [Date] is its epoch-millisecond value in [Z].  A number
      is an integer-valued IEEE 754 double, kept as that integer in [Z];
      reading a numeral and every arithmetic operation round to the nearest
      double ([toDouble]).  The clock ([new Date()]) is an argument [now]
      of every handler that reads it.
    - A collection is the list of its documents in insertion order; a
      handler maps a store to a response and the store it leaves behind.
      Requests are handled one at a time.
    - An exception that reaches a handler's [catch] is a [Fault]; every
      handler answers it with the same 500 response.
    - A request body carries schema paths of the broadcast only, each with
      a value of the type of the path or one its caster rejects; keys that
      name other members of a document object are not part of a body here.
      On such bodies [populate] only changes how [createdBy] is rendered
      in a response; it is left out. *)

From Stdlib Require Import ZArith List String Ascii Bool Lia.
From Stdlib Require Import Permutation Sorting.Sorted.
Import ListNotations.

Local Open Scope string_scope.
Local Open Scope Z_scope.
Local Open Scope list_scope.

(** ** Text *)

Definition isUpper (c : ascii) : bool :=
  let n := nat_of_ascii c in ((65 <=? n) && (n <=? 90))%nat.

Definition toLower (c : ascii) : ascii :=
  if isUpper c then ascii_of_nat (nat_of_ascii c + 32) else c.

Fixpoint toLowerCase (s : string) : string :=
  match s with
  | EmptyString => EmptyString
  | String c s' => String (toLower c) (toLowerCase s')
  end.

(** White space as [String.prototype.trim] sees it, within ASCII. *)
Definition isSpace (c : ascii) : bool :=
  let n := nat_of_ascii c in (((9 <=? n) && (n <=? 13)) || (n =? 32))%nat.

Fixpoint trimStart (s : string) : string :=
  match s with
  | EmptyString => EmptyString
  | String c s' => if isSpace c then trimStart s' else s
  end.

Definition reverse (s : string) : string :=
  string_of_list_ascii (rev (list_ascii_of_string s)).

Definition trim (s : string) : string :=
  reverse (trimStart (reverse (trimStart s))).

(** [p] is a prefix of [s], letter case ignored. *)
Fixpoint prefix_ci (p s : string) : bool :=
  match p, s with
  | EmptyString, _ => true
  | String _ _, EmptyString => false
  | String a p', String b s' => Ascii.eqb (toLower a) (toLower b) && prefix_ci p' s'
  end.

(** [p] occurs somewhere in [s], letter case ignored. *)
Fixpoint includes_ci (p s : string) : bool :=
  prefix_ci p s ||
  match s with
  | EmptyString => false
  | String _ s' => includes_ci p s'
  end.

(** The same notion in words: [s] is [u ++ p ++ v] once both are folded to
    lower case. *)
Definition Substring_ci (p s : string) : Prop :=
  exists u v : string,
    toLowerCase s = String.append u (String.append (toLowerCase p) v).

(** ** Numbers

    The integers among the doubles are those of magnitude up to [2 ^ 53]
    and, beyond, the multiples of a power of two that fit 53 significant
    bits.  [toDouble z] is the double nearest to the integer [z], a tie
    going to the even significand: it is what reading a decimal numeral
    gives, and what an addition, a subtraction or a product of integer
    doubles gives from its exact result.  A magnitude of [2 ^ 1024] or
    more, which JavaScript reads as [Infinity], is outside the model. *)

Definition toDouble (z : Z) : Z :=
  let a := Z.abs z in
  if a <? 2 ^ 53 then z
  else
    let ulp := 2 ^ (Z.log2 a - 52) in
    let q := a / ulp in
    let r := a mod ulp in
    let q' := if 2 * r <? ulp then q
              else if ulp <? 2 * r then q + 1
              else if Z.even q then q else q + 1 in
    Z.sgn z * (q' * ulp).

(** [a - b] and [a * b] on numbers. *)
Definition jsMinus (a b : Z) : Z := toDouble (a - b).

Definition jsTimes (a b : Z) : Z := toDouble (a * b).

(** ** Object ids

    An [ObjectId] is kept as the 24 lower-case hexadecimal digits that
    [toString()] prints.  The driver accepts a string as an id when it has
    24 hexadecimal digits, or when it has exactly 12 characters, which are
    then taken as the 12 bytes. *)

Definition ObjectId := string.

Definition isHexDigit (c : ascii) : bool :=
  let n := nat_of_ascii c in
  (((48 <=? n) && (n <=? 57)) || ((97 <=? n) && (n <=? 102)) ||
   ((65 <=? n) && (n <=? 70)))%nat.

Definition hexDigit (n : nat) : ascii :=
  nth n (list_ascii_of_string "0123456789abcdef") "0"%char.

Fixpoint toHexString (bytes : string) : string :=
  match bytes with
  | EmptyString => EmptyString
  | String c s' =>
      let n := nat_of_ascii c in
      String (hexDigit (n / 16)) (String (hexDigit (n mod 16)) (toHexString s'))
  end.

Definition castObjectId (s : string) : option ObjectId :=
  if ((String.length s =? 24)%nat &&
      forallb isHexDigit (list_ascii_of_string s))%bool
  then Some (toLowerCase s)
  else if (String.length s =? 12)%nat then Some (toHexString s)
  else None.

(** ** The Broadcast document ([broadcastSchema])

    A path that can hold [null] is an [option].  [createdAt] and
    [updatedAt] come from [timestamps: true]. *)

Record Broadcast : Type := mkBroadcast {
  _id : ObjectId;
  title : option string;
  message : option string;
  urgency : option string;
  type : option string;
  tags : option (list string);
  createdBy : option ObjectId;
  expiryDate : option Z;
  status : option string;
  views : option Z;
  priority : option Z;
  createdAt : Z;
  updatedAt : Z
}.

Definition set_title (v : option string) (b : Broadcast) : Broadcast :=
  mkBroadcast (_id b) v (message b) (urgency b) (type b) (tags b)
    (createdBy b) (expiryDate b) (status b) (views b) (priority b)
    (createdAt b) (updatedAt b).

Definition set_message (v : option string) (b : Broadcast) : Broadcast :=
  mkBroadcast (_id b) (title b) v (urgency b) (type b) (tags b)
    (createdBy b) (expiryDate b) (status b) (views b) (priority b)
    (createdAt b) (updatedAt b).

Definition set_urgency (v : option string) (b : Broadcast) : Broadcast :=
  mkBroadcast (_id b) (title b) (message b) v (type b) (tags b)
    (createdBy b) (expiryDate b) (status b) (views b) (priority b)
    (createdAt b) (updatedAt b).

Definition set_type (v : option string) (b : Broadcast) : Broadcast :=
  mkBroadcast (_id b) (title b) (message b) (urgency b) v (tags b)
    (createdBy b) (expiryDate b) (status b) (views b) (priority b)
    (createdAt b) (updatedAt b).

Definition set_tags (v : option (list string)) (b : Broadcast) : Broadcast :=
  mkBroadcast (_id b) (title b) (message b) (urgency b) (type b) v
    (createdBy b) (expiryDate b) (status b) (views b) (priority b)
    (createdAt b) (updatedAt b).

Definition set_createdBy (v : option ObjectId) (b : Broadcast) : Broadcast :=
  mkBroadcast (_id b) (title b) (message b) (urgency b) (type b) (tags b)
    v (expiryDate b) (status b) (views b) (priority b)
    (createdAt b) (updatedAt b).

Definition set_expiryDate (v : option Z) (b : Broadcast) : Broadcast :=
  mkBroadcast (_id b) (title b) (message b) (urgency b) (type b) (tags b)
    (createdBy b) v (status b) (views b) (priority b)
    (createdAt b) (updatedAt b).

Definition set_status (v : option string) (b : Broadcast) : Broadcast :=
  mkBroadcast (_id b) (title b) (message b) (urgency b) (type b) (tags b)
    (createdBy b) (expiryDate b) v (views b) (priority b)
    (createdAt b) (updatedAt b).

Definition set_views (v : option Z) (b : Broadcast) : Broadcast :=
  mkBroadcast (_id b) (title b) (message b) (urgency b) (type b) (tags b)
    (createdBy b) (expiryDate b) (status b) v (priority b)
    (createdAt b) (updatedAt b).

Definition set_priority (v : option Z) (b : Broadcast) : Broadcast :=
  mkBroadcast (_id b) (title b) (message b) (urgency b) (type b) (tags b)
    (createdBy b) (expiryDate b) (status b) (views b) v
    (createdAt b) (updatedAt b).

Definition set_createdAt (t : Z) (b : Broadcast) : Broadcast :=
  mkBroadcast (_id b) (title b) (message b) (urgency b) (type b) (tags b)
    (createdBy b) (expiryDate b) (status b) (views b) (priority b)
    t (updatedAt b).

Definition set_updatedAt (t : Z) (b : Broadcast) : Broadcast :=
  mkBroadcast (_id b) (title b) (message b) (urgency b) (type b) (tags b)
    (createdBy b) (expiryDate b) (status b) (views b) (priority b)
    (createdAt b) t.

(** *** Validators of the schema *)

Definition urgencyEnum : list string := ["low"; "medium"; "high"].

Definition typeEnum : list string :=
  ["announcement"; "alert"; "maintenance"; "update"; "news"; "meeting"].

Definition statusEnum : list string := ["active"; "expired"; "archived"].

(** [required] on a String path rejects [null] and the empty string. *)
Definition requiredString (v : option string) : bool :=
  match v with
  | Some s => negb (String.eqb s "")
  | None => false
  end.

Definition required {A : Type} (v : option A) : bool :=
  match v with Some _ => true | None => false end.

(** [maxlength] lets [null] through. *)
Definition maxlength (n : nat) (v : option string) : bool :=
  match v with
  | Some s => (String.length s <=? n)%nat
  | None => true
  end.

(** [enum] only lets [undefined] through beside the listed values; a path
    with a default is never [undefined], so [null] is rejected. *)
Definition enum (values : list string) (v : option string) : bool :=
  match v with
  | Some s => existsb (String.eqb s) values
  | None => false
  end.

Definition validate (b : Broadcast) : bool :=
  requiredString (title b) && maxlength 200 (title b) &&
  requiredString (message b) && maxlength 5000 (message b) &&
  enum urgencyEnum (urgency b) &&
  enum typeEnum (type b) &&
  required (createdBy b) &&
  enum statusEnum (status b).

(** The virtual [isExpired]. *)
Definition isExpired (now : Z) (b : Broadcast) : bool :=
  match expiryDate b with
  | None => false
  | Some t => t <? now
  end.

(** [broadcastSchema.pre('save')]: a [Date] object is truthy whatever its
    value, so only [null] skips the comparison. *)
Definition preSave (now : Z) (b : Broadcast) : Broadcast :=
  match expiryDate b with
  | Some t => if t <? now then set_status (Some "expired") b else b
  | None => b
  end.

(** ** Users and tokens

    The User model is not part of the sources at hand; the record holds the
    paths the login handler reads and writes. *)

Record User : Type := mkUser {
  user_id : ObjectId;
  username : string;
  email : string;
  password : string;
  role : string;
  isActive : bool;
  lastLogin : option Z;
  preferences : string
}.

Definition set_lastLogin (t : option Z) (u : User) : User :=
  mkUser (user_id u) (username u) (email u) (password u) (role u)
    (isActive u) t (preferences u).

(** What [jwt.sign({ id, role }, secret, { expiresIn: '7d' })] signs. *)
Record Token : Type := mkToken {
  token_id : ObjectId;
  token_role : string;
  iat : Z;
  exp : Z
}.

(** ['7d'] in seconds, the unit of the [iat] and [exp] claims. *)
Definition sevenDays : Z := 7 * 24 * 60 * 60.

(** [iat] is [Math.floor(Date.now() / 1000)]; the clock that [jwt.sign]
    reads is taken to show the time the handler read. *)
Definition sign (u : User) (now : Z) : Token :=
  let issued := now / 1000 in
  mkToken (user_id u) (role u) issued (issued + sevenDays).

(** The identity the [auth] middleware leaves in [req.user]. *)
Record Identity : Type := mkIdentity {
  id : string;
  identity_role : string
}.

(** ** Responses *)

Record Pagination : Type := mkPagination {
  page : Z;
  limit : Z;
  total : Z;
  pages : option Z
}.

(** The part of a user that a login response shows. *)
Record Profile : Type := mkProfile {
  profile_id : ObjectId;
  profile_username : string;
  profile_email : string;
  profile_role : string;
  profile_preferences : string
}.

Definition profile (u : User) : Profile :=
  mkProfile (user_id u) (username u) (email u) (role u) (preferences u).

Inductive Data : Type :=
| NoData
| Item (b : Broadcast)
| Items (l : list Broadcast) (p : Pagination)
| Session (t : Token) (u : Profile).

Record Response : Type := mkResponse {
  res_status : Z;
  res_success : bool;
  res_message : option string;
  res_data : Data
}.

Definition json (code : Z) (ok : bool) (msg : option string) (d : Data)
  : Response := mkResponse code ok msg d.

(** The answer of every [catch] block. *)
Definition serverError : Response :=
  json 500 false (Some "Server error") NoData.

Definition notFound : Response :=
  json 404 false (Some "Broadcast not found") NoData.

Definition notAuthorized : Response :=
  json 403 false (Some "Not authorized") NoData.

Definition invalidCredentials : Response :=
  json 400 false (Some "Invalid credentials") NoData.

Definition accountDeactivated : Response :=
  json 403 false (Some "Account is deactivated") NoData.

(** ** Exceptions *)

Inductive Fault : Type :=
| ValidationError
| CastError
| MongoError
| TypeError.

Inductive Result (A : Type) : Type :=
| Returned (a : A)
| Threw (e : Fault).

Arguments Returned {A} a.
Arguments Threw {A} e.

(** ** Request bodies

    A body is taken after JSON parsing and after the cast of each value to
    the type of its schema path: a key carries [null], a value of the path's
    type, or a value the path's caster rejects (for a date, a number beyond
    the range of [Date] is one).  A number is given by the integer of its
    numeral, which the assignment reads as the nearest double.  Keys are
    listed in the order of the object.  The keys are the ten paths that the
    schema lists: the timestamp paths [createdAt] and [updatedAt] and the
    names of other members of a document, which a request can carry as
    well, are not modelled, and what is stated of an update is stated of
    bodies with these ten keys. *)

Inductive Supplied (A : Type) : Type :=
| Null
| Value (a : A)
| Uncastable.

Arguments Null {A}.
Arguments Value {A} a.
Arguments Uncastable {A}.

Inductive Entry : Type :=
| Key_title (v : Supplied string)
| Key_message (v : Supplied string)
| Key_urgency (v : Supplied string)
| Key_type (v : Supplied string)
| Key_tags (v : Supplied (list string))
| Key_createdBy (v : Supplied ObjectId)
| Key_expiryDate (v : Supplied Z)
| Key_status (v : Supplied string)
| Key_views (v : Supplied Z)
| Key_priority (v : Supplied Z).

Definition Body : Type := list Entry.

(** [body[key]]: the last entry of the key, [None] for [undefined]. *)
Fixpoint property {A : Type} (pick : Entry -> option (Supplied A))
  (body : Body) : option (Supplied A) :=
  match body with
  | [] => None
  | e :: rest =>
      match property pick rest with
      | Some v => Some v
      | None => pick e
      end
  end.

Definition pick_title (e : Entry) : option (Supplied string) :=
  match e with Key_title v => Some v | _ => None end.
Definition pick_message (e : Entry) : option (Supplied string) :=
  match e with Key_message v => Some v | _ => None end.
Definition pick_urgency (e : Entry) : option (Supplied string) :=
  match e with Key_urgency v => Some v | _ => None end.
Definition pick_type (e : Entry) : option (Supplied string) :=
  match e with Key_type v => Some v | _ => None end.
Definition pick_tags (e : Entry) : option (Supplied (list string)) :=
  match e with Key_tags v => Some v | _ => None end.
Definition pick_expiryDate (e : Entry) : option (Supplied Z) :=
  match e with Key_expiryDate v => Some v | _ => None end.

(** ** Documents in memory

    A document remembers whether it is new, whether a path changed since
    it was loaded, and whether an assignment failed to cast (Mongoose keeps
    the error and reports it when the document is validated). *)

Record Document : Type := mkDocument {
  fields : Broadcast;
  isNew : bool;
  isModified : bool;
  invalidated : bool
}.

Definition option_eqb {A : Type} (eqb : A -> A -> bool) (x y : option A)
  : bool :=
  match x, y with
  | Some a, Some b => eqb a b
  | None, None => true
  | _, _ => false
  end.

Fixpoint list_eqb {A : Type} (eqb : A -> A -> bool) (x y : list A) : bool :=
  match x, y with
  | [], [] => true
  | a :: x', b :: y' => eqb a b && list_eqb eqb x' y'
  | _, _ => false
  end.

(** [doc[path] = v] on a schema path: the setter of the path is applied to
    a cast value; a value equal to the current one leaves the document
    unmodified; a cast failure keeps the old value and invalidates the
    document. *)
Definition assign {A : Type} (eqb : A -> A -> bool)
  (get : Broadcast -> option A) (put : option A -> Broadcast -> Broadcast)
  (setter : A -> A) (v : Supplied A) (d : Document) : Document :=
  let store (x : option A) :=
    if option_eqb eqb x (get (fields d)) then d
    else mkDocument (put x (fields d)) (isNew d) true (invalidated d) in
  match v with
  | Null => store None
  | Value a => store (Some (setter a))
  | Uncastable => mkDocument (fields d) (isNew d) (isModified d) true
  end.

Definition same {A : Type} (a : A) : A := a.

Definition setEntry (d : Document) (e : Entry) : Document :=
  match e with
  | Key_title v => assign String.eqb title set_title trim v d
  | Key_message v => assign String.eqb message set_message trim v d
  | Key_urgency v => assign String.eqb urgency set_urgency same v d
  | Key_type v => assign String.eqb type set_type same v d
  | Key_tags v => assign (list_eqb String.eqb) tags set_tags (map trim) v d
  | Key_createdBy v => assign String.eqb createdBy set_createdBy same v d
  | Key_expiryDate v => assign Z.eqb expiryDate set_expiryDate same v d
  | Key_status v => assign String.eqb status set_status same v d
  | Key_views v => assign Z.eqb views set_views toDouble v d
  | Key_priority v => assign Z.eqb priority set_priority toDouble v d
  end.

Definition setProperty {A : Type} (key : Supplied A -> Entry)
  (v : option (Supplied A)) (d : Document) : Document :=
  match v with
  | Some x => setEntry d (key x)
  | None => d
  end.

(** The defaults of the schema, under a freshly generated [_id]. *)
Definition defaults (oid : ObjectId) : Broadcast :=
  mkBroadcast oid None None (Some "medium") (Some "announcement") (Some [])
    None None (Some "active") (Some 0) (Some 0) 0 0.

(** [new Broadcast({ title, message, urgency, type, tags, expiryDate,
    createdBy })]: an [undefined] property leaves the default. *)
Definition newBroadcast (oid : ObjectId)
  (title_ message_ urgency_ type_ : option (Supplied string))
  (tags_ : option (Supplied (list string)))
  (expiryDate_ : option (Supplied Z))
  (createdBy_ : Supplied ObjectId) : Document :=
  setEntry
    (setProperty Key_expiryDate expiryDate_
      (setProperty Key_tags tags_
        (setProperty Key_type type_
          (setProperty Key_urgency urgency_
            (setProperty Key_message message_
              (setProperty Key_title title_
                (mkDocument (defaults oid) true false false)))))))
    (Key_createdBy createdBy_).

(** ** The collection *)

Definition Store : Type := list Broadcast.

Definition hasId (oid : ObjectId) (b : Broadcast) : bool :=
  String.eqb (_id b) oid.

Definition lookup (s : Store) (oid : ObjectId) : option Broadcast :=
  List.find (hasId oid) s.

(** [Broadcast.findById(id)]: the query casts [id] to an ObjectId first and
    rejects with a [CastError] when it cannot. *)
Definition findById (s : Store) (id_ : string) : Result (option Broadcast) :=
  match castObjectId id_ with
  | Some oid => Returned (lookup s oid)
  | None => Threw CastError
  end.

Fixpoint replaceOne (b : Broadcast) (s : Store) : Store :=
  match s with
  | [] => []
  | x :: rest =>
      if hasId (_id b) x then b :: rest else x :: replaceOne b rest
  end.

Fixpoint deleteOne (oid : ObjectId) (s : Store) : Store :=
  match s with
  | [] => []
  | x :: rest => if hasId oid x then rest else x :: deleteOne oid rest
  end.

(** The hook that [timestamps: true] installs; it is registered with the
    schema, before the hook of the model file. *)
Definition timestamps (now : Z) (d : Document) : Broadcast :=
  if isNew d then set_updatedAt now (set_createdAt now (fields d))
  else if isModified d then set_updatedAt now (fields d)
  else fields d.

(** [doc.save()]: validation of the whole document runs first and throws a
    [ValidationError]; then the pre-save hooks; then the write, an insert
    for a new document (the unique index on [_id] refuses a duplicate) and
    an update of the stored document otherwise. *)
Definition save (now : Z) (d : Document) (s : Store)
  : Result (Broadcast * Store) :=
  if invalidated d || negb (validate (fields d)) then Threw ValidationError
  else
    let b := preSave now (timestamps now d) in
    if isNew d then
      if existsb (hasId (_id b)) s then Threw MongoError
      else Returned (b, s ++ [b])
    else Returned (b, replaceOne b s).

(** [broadcast.remove()]. *)
Definition remove (b : Broadcast) (s : Store) : Store :=
  deleteOne (_id b) s.

(** A [try] block runs in [Result]; the [catch] of every handler logs the
    fault and answers [serverError], the store being as it was. *)
Definition bind {A B : Type} (r : Result A) (k : A -> Result B) : Result B :=
  match r with
  | Returned a => k a
  | Threw e => Threw e
  end.

Notation "x <- r ;; k" := (bind r (fun x => k))
  (at level 61, r at next level, right associativity).

Definition tryCatch (s : Store) (r : Result (Response * Store))
  : Response * Store :=
  match r with
  | Returned out => out
  | Threw _ => (serverError, s)
  end.

(** ** Sorting

    A sort string is taken as Mongoose splits it: a list of fields, each
    ascending or descending ([-field]); the fields are paths of the
    document.  Keys compare in the order of BSON types, strings and ids
    byte by byte; an array sorts by its least element when ascending and
    by its greatest when descending, an empty array before [null].
    Documents that tie keep their insertion order. *)

Inductive Path : Type :=
| P_id | P_title | P_message | P_urgency | P_type | P_tags | P_createdBy
| P_expiryDate | P_status | P_views | P_priority | P_createdAt | P_updatedAt.

Definition SortSpec : Type := list (Path * bool).

(** ['-createdAt']. *)
Definition newestFirst : SortSpec := [(P_createdAt, true)].

Inductive SortKey : Type :=
| KEmptyArray
| KNull
| KNumber (n : Z)
| KString (s : string)
| KObjectId (o : ObjectId)
| KDate (t : Z).

Definition rank (k : SortKey) : Z :=
  match k with
  | KEmptyArray => 0
  | KNull => 1
  | KNumber _ => 2
  | KString _ => 3
  | KObjectId _ => 4
  | KDate _ => 5
  end.

Definition compareKey (a b : SortKey) : comparison :=
  match a, b with
  | KNumber x, KNumber y => x ?= y
  | KDate x, KDate y => x ?= y
  | KString x, KString y => String.compare x y
  | KObjectId x, KObjectId y => String.compare x y
  | _, _ => rank a ?= rank b
  end.

Definition keyOf {A : Type} (k : A -> SortKey) (v : option A) : SortKey :=
  match v with
  | Some a => k a
  | None => KNull
  end.

Definition least (a b : string) : string :=
  match String.compare b a with Lt => b | _ => a end.

Definition greatest (a b : string) : string :=
  match String.compare b a with Gt => b | _ => a end.

Definition arrayKey (descending : bool) (v : option (list string)) : SortKey :=
  match v with
  | None => KNull
  | Some [] => KEmptyArray
  | Some (x :: l) =>
      KString (fold_left (if descending then greatest else least) l x)
  end.

Definition sortKey (p : Path) (descending : bool) (b : Broadcast) : SortKey :=
  match p with
  | P_id => KObjectId (_id b)
  | P_title => keyOf KString (title b)
  | P_message => keyOf KString (message b)
  | P_urgency => keyOf KString (urgency b)
  | P_type => keyOf KString (type b)
  | P_tags => arrayKey descending (tags b)
  | P_createdBy => keyOf KObjectId (createdBy b)
  | P_expiryDate => keyOf KDate (expiryDate b)
  | P_status => keyOf KString (status b)
  | P_views => keyOf KNumber (views b)
  | P_priority => keyOf KNumber (priority b)
  | P_createdAt => KDate (createdAt b)
  | P_updatedAt => KDate (updatedAt b)
  end.

Fixpoint compareDocs (spec : SortSpec) (a b : Broadcast) : comparison :=
  match spec with
  | [] => Eq
  | (p, descending) :: rest =>
      let c := compareKey (sortKey p descending a) (sortKey p descending b) in
      match (if descending then CompOpp c else c) with
      | Eq => compareDocs rest a b
      | c' => c'
      end
  end.

Fixpoint insertSorted (spec : SortSpec) (x : Broadcast) (l : list Broadcast)
  : list Broadcast :=
  match l with
  | [] => [x]
  | y :: rest =>
      match compareDocs spec x y with
      | Gt => y :: insertSorted spec x rest
      | _ => x :: l
      end
  end.

Definition sortDocs (spec : SortSpec) (l : list Broadcast) : list Broadcast :=
  fold_right (insertSorted spec) [] l.

(** [a] may stand before [b] under the sort. *)
Definition inOrder (spec : SortSpec) (a b : Broadcast) : Prop :=
  compareDocs spec a b <> Gt.

(** ** The broadcast router *)

Definition orDefault {A : Type} (d : A) (v : option A) : A :=
  match v with
  | Some a => a
  | None => d
  end.

(** [if (x) ...] on a string that may be [undefined]. *)
Definition truthy (v : option string) : option string :=
  match v with
  | Some s => if String.eqb s "" then None else Some s
  | None => None
  end.

(** JavaScript's conversion of [views] to a number: [null] counts as 0. *)
Definition toNumber (v : option Z) : Z := orDefault 0 v.

(** A document as [findById] hands it out. *)
Definition loaded (b : Broadcast) : Document := mkDocument b false false false.

(** [broadcast.createdBy.toString()]; on [null] the call throws. *)
Definition toString (v : option ObjectId) : Result string :=
  match v with
  | Some o => Returned o
  | None => Threw TypeError
  end.

Definition castId (s : string) : Supplied ObjectId :=
  match castObjectId s with
  | Some o => Value o
  | None => Uncastable
  end.

(** [GET /:id].  [broadcast.views += 1] is an addition of doubles: the
    sum is rounded when it is assigned, so that from [2 ^ 53] on it can be
    the old value again, which leaves the document unmodified. *)
Definition GET_id (now : Z) (id_ : string) (s : Store) : Response * Store :=
  tryCatch s (
    found <- findById s id_ ;;
    match found with
    | None => Returned (notFound, s)
    | Some broadcast =>
        let d := setEntry (loaded broadcast)
                   (Key_views (Value (toNumber (views broadcast) + 1))) in
        saved <- save now d s ;;
        Returned (json 200 true None (Item (fst saved)), snd saved)
    end).

(** [POST /]; [oid] is the id the constructor generates. *)
Definition POST_create (now : Z) (oid : ObjectId) (user : Identity)
  (body : Body) (s : Store) : Response * Store :=
  tryCatch s (
    let d := newBroadcast oid
               (property pick_title body) (property pick_message body)
               (property pick_urgency body) (property pick_type body)
               (property pick_tags body) (property pick_expiryDate body)
               (castId (id user)) in
    saved <- save now d s ;;
    Returned (json 201 true (Some "Broadcast created successfully")
                (Item (fst saved)), snd saved)).

(** The ownership test shared by [PUT /:id] and [DELETE /:id]. *)
Definition refused (owner : string) (user : Identity) : bool :=
  negb (String.eqb owner (id user)) &&
  negb (String.eqb (identity_role user) "admin").

(** [PUT /:id]. *)
Definition PUT_id (now : Z) (id_ : string) (user : Identity) (updates : Body)
  (s : Store) : Response * Store :=
  tryCatch s (
    found <- findById s id_ ;;
    match found with
    | None => Returned (notFound, s)
    | Some broadcast =>
        owner <- toString (createdBy broadcast) ;;
        if refused owner user then Returned (notAuthorized, s)
        else
          let d := fold_left setEntry updates (loaded broadcast) in
          saved <- save now d s ;;
          Returned (json 200 true (Some "Broadcast updated successfully")
                      (Item (fst saved)), snd saved)
    end).

(** [DELETE /:id]. *)
Definition DELETE_id (id_ : string) (user : Identity) (s : Store)
  : Response * Store :=
  tryCatch s (
    found <- findById s id_ ;;
    match found with
    | None => Returned (notFound, s)
    | Some broadcast =>
        owner <- toString (createdBy broadcast) ;;
        if refused owner user then Returned (notAuthorized, s)
        else
          Returned (json 200 true (Some "Broadcast deleted successfully")
                      NoData, remove broadcast s)
    end).

(** *** Listing

    The parameters of the query string are strings, absent ones being
    [undefined].  [page] and [limit] arrive as decimal numerals, which
    [parseInt] and the division [total / limit] read as the same double;
    [sort] is taken as the list of fields it names. *)

Record ListQuery : Type := mkListQuery {
  q_page : option Z;
  q_limit : option Z;
  q_type : option string;
  q_urgency : option string;
  q_status : option string;
  q_search : option string;
  q_sort : option SortSpec
}.

(** The [query] object; [query_or] is the compiled search expression. *)
Record Query : Type := mkQuery {
  query_type : option string;
  query_urgency : option string;
  query_status : option string;
  query_or : option (string -> bool)
}.

(** [{ path: value }] on a string path. *)
Definition equals (want : option string) (have : option string) : bool :=
  match want with
  | None => true
  | Some w =>
      match have with
      | Some h => String.eqb h w
      | None => false
      end
  end.

Definition test (re : string -> bool) (v : option string) : bool :=
  match v with
  | Some s => re s
  | None => false
  end.

(** [{ tags: { $regex } }]: some element of the array matches. *)
Definition testAny (re : string -> bool) (v : option (list string)) : bool :=
  match v with
  | Some l => existsb re l
  | None => false
  end.

Definition matches (q : Query) (b : Broadcast) : bool :=
  equals (query_type q) (type b) &&
  equals (query_urgency q) (urgency b) &&
  equals (query_status q) (status b) &&
  match query_or q with
  | None => true
  | Some re => test re (title b) || test re (message b) || testAny re (tags b)
  end.

Definition countDocuments (q : Query) (s : Store) : Z :=
  Z.of_nat (List.length (filter (matches q) s)).

(** [.limit(n)]: 0 is no limit, a negative [n] is read as [-n]. *)
Definition limitTo (n : Z) (l : list Broadcast) : list Broadcast :=
  if n =? 0 then l else firstn (Z.to_nat (Z.abs n)) l.

(** [find(query).sort(sort).limit(limit).skip(skip)]: the skip is applied
    before the limit whatever the order of the calls; the database refuses
    a negative skip. *)
Definition find (q : Query) (sort : SortSpec) (limit_ skip_ : Z) (s : Store)
  : Result (list Broadcast) :=
  if skip_ <? 0 then Threw MongoError
  else
    Returned
      (limitTo limit_
         (skipn (Z.to_nat skip_) (sortDocs sort (filter (matches q) s)))).

(** [Math.ceil(a / b)] for [b <> 0]. *)
Definition ceilDiv (a b : Z) : Z := - ((- a) / b).

(** [Math.ceil(total / limit)]; a division by zero gives [Infinity] or
    [NaN], which JSON prints as [null].  The quotient of the two doubles is
    rounded, but for a total below [2 ^ 53] never as far as the integer
    under it, so that its ceiling is the exact one. *)
Definition pageCount (total_ limit_ : Z) : option Z :=
  if limit_ =? 0 then None else Some (ceilDiv total_ limit_).

Section Service.

(** The database's [$regex] with [$options: 'i']: the matcher of a
    pattern, or [None] for a pattern it refuses. *)
Variable regex_i : string -> option (string -> bool).

(** [user.comparePassword(candidate)], a method of the User model. *)
Variable comparePassword : User -> string -> bool.

Definition searchFilter (search : option string)
  : Result (option (string -> bool)) :=
  match truthy search with
  | None => Returned None
  | Some term =>
      match regex_i term with
      | Some re => Returned (Some re)
      | None => Threw MongoError
      end
  end.

(** [GET /]. *)
Definition GET_list (q : ListQuery) (s : Store) : Response * Store :=
  tryCatch s (
    let page_ := toDouble (orDefault 1 (q_page q)) in
    let limit_ := toDouble (orDefault 20 (q_limit q)) in
    let status_ := orDefault "active" (q_status q) in
    let sort := orDefault newestFirst (q_sort q) in
    or <- searchFilter (q_search q) ;;
    let query :=
      mkQuery (truthy (q_type q)) (truthy (q_urgency q))
        (truthy (Some status_)) or in
    broadcasts <- find query sort limit_ (jsTimes (jsMinus page_ 1) limit_) s ;;
    let total_ := countDocuments query s in
    Returned
      (json 200 true None
         (Items broadcasts
            (mkPagination page_ limit_ total_ (pageCount total_ limit_))),
       s)).

(** *** Login *)

Definition Users : Type := list User.

(** [User.findOne({ email })]. *)
Definition findOne (users : Users) (email_ : string) : option User :=
  List.find (fun u => String.eqb (email u) email_) users.

Fixpoint saveUser (u : User) (users : Users) : Users :=
  match users with
  | [] => []
  | x :: rest =>
      if String.eqb (user_id x) (user_id u) then u :: rest
      else x :: saveUser u rest
  end.

(** [POST /login]. *)
Definition POST_login (now : Z) (email_ password_ : string) (users : Users)
  : Response * Users :=
  match findOne users email_ with
  | None => (invalidCredentials, users)
  | Some user =>
      if negb (comparePassword user password_) then
        (invalidCredentials, users)
      else if negb (isActive user) then (accountDeactivated, users)
      else
        let user' := set_lastLogin (Some now) user in
        (json 200 true (Some "Login successful")
           (Session (sign user' now) (profile user')),
         saveUser user' users)
  end.

End Service.

(** ** A matcher to run the handlers with

    It reads a pattern made of ordinary characters and of [.], which stands
    for any character but a line feed, and it refuses every other pattern. *)

Definition isMeta (c : ascii) : bool :=
  existsb (Ascii.eqb c) (list_ascii_of_string "\^$.|?*+()[]{}").

Inductive Atom : Type :=
| Literal (c : ascii)
| AnyChar.

Fixpoint atoms (pattern : string) : option (list Atom) :=
  match pattern with
  | EmptyString => Some []
  | String c rest =>
      match atoms rest with
      | None => None
      | Some l =>
          if Ascii.eqb c "." then Some (AnyChar :: l)
          else if isMeta c then None
          else Some (Literal c :: l)
      end
  end.

Definition atomMatches (a : Atom) (c : ascii) : bool :=
  match a with
  | Literal x => Ascii.eqb (toLower x) (toLower c)
  | AnyChar => negb (Ascii.eqb c (ascii_of_nat 10))
  end.

Fixpoint matchesAt (l : list Atom) (s : string) : bool :=
  match l, s with
  | [], _ => true
  | _ :: _, EmptyString => false
  | a :: l', String c s' => atomMatches a c && matchesAt l' s'
  end.

Fixpoint searchAtoms (l : list Atom) (s : string) : bool :=
  matchesAt l s ||
  match s with
  | EmptyString => false
  | String _ s' => searchAtoms l s'
  end.

Definition dotRegex (pattern : string) : option (string -> bool) :=
  option_map searchAtoms (atoms pattern).

Definition plain (pattern : string) : bool :=
  forallb (fun c => negb (isMeta c)) (list_ascii_of_string pattern).

(** A password check to run the login handler with: the stored hash is the
    password itself. *)
Definition plainPassword (u : User) (candidate : string) : bool :=
  String.eqb (password u) candidate.

(** ** Histories

    The states of the collection are those that requests to the router
    produce from the empty collection. *)

Inductive Request : Type :=
| Create (now : Z) (oid : ObjectId) (user : Identity) (body : Body)
| Read (now : Z) (id_ : string)
| Update (now : Z) (id_ : string) (user : Identity) (updates : Body)
| Delete (id_ : string) (user : Identity).

Definition step (s : Store) (r : Request) : Store :=
  match r with
  | Create now oid user body => snd (POST_create now oid user body s)
  | Read now id_ => snd (GET_id now id_ s)
  | Update now id_ user updates => snd (PUT_id now id_ user updates s)
  | Delete id_ user => snd (DELETE_id id_ user s)
  end.

Definition run (history : list Request) : Store :=
  fold_left step history [].

(** An update entry that leaves [views] a count: it does not write a
    negative number or [null] there. *)
Definition keepsCount (e : Entry) : bool :=
  match e with
  | Key_views (Value n) => 0 <=? n
  | Key_views Null => false
  | _ => true
  end.

Definition countKeeping (r : Request) : bool :=
  match r with
  | Update _ _ _ updates => forallb keepsCount updates
  | _ => true
  end.

(** [views] holds a non-negative number. *)
Definition isCount (v : option Z) : Prop :=
  exists n : Z, v = Some n /\ 0 <= n.

(** ** What the specification says, where the code differs *)

(** A search term occurs in the title, in the message or in a tag. *)
Definition occursIn (term : string) (b : Broadcast) : Prop :=
  (exists t, title b = Some t /\ Substring_ci term t) \/
  (exists m, message b = Some m /\ Substring_ci term m) \/
  (exists l tag, tags b = Some l /\ In tag l /\ Substring_ci term tag).

(** The listing: [active] by default, the given status otherwise, and a
    substring search. *)
Definition listing_as_specified (regex : string -> option (string -> bool))
  (q : ListQuery) (s : Store) : Prop :=
  forall l p b,
    fst (GET_list regex q s) = json 200 true None (Items l p) ->
    In b l ->
    (q_status q = None -> status b = Some "active") /\
    (forall st, q_status q = Some st -> status b = Some st) /\
    (forall ty, truthy (q_type q) = Some ty -> type b = Some ty) /\
    (forall u, truthy (q_urgency q) = Some u -> urgency b = Some u) /\
    (forall term, q_search q = Some term -> occursIn term b).




(** A listing with a positive [page] and a positive [limit] answers with at
    most [limit] items, a total and the number of pages the total makes. *)
Definition pagination_as_specified (regex : string -> option (string -> bool))
  (q : ListQuery) (s : Store) : Prop :=
  let page_ := orDefault 1 (q_page q) in
  let limit_ := orDefault 20 (q_limit q) in
  0 < page_ -> 0 < limit_ ->
  exists l p pages_,
    fst (GET_list regex q s) = json 200 true None (Items l p) /\
    Z.of_nat (List.length l) <= limit_ /\
    pages p = Some pages_ /\
    (pages_ - 1) * limit_ < total p <= pages_ * limit_.

(** A body without title or message, or with an urgency or a type outside
    its enumeration. *)
Definition missing (v : option (Supplied string)) : Prop :=
  v = None \/ v = Some Null \/ exists x, v = Some (Value x) /\ trim x = "".

Definition outside (values : list string) (v : option (Supplied string))
  : Prop :=
  exists x, v = Some (Value x) /\ ~ In x values.

Definition rejected (body : Body) : Prop :=
  missing (property pick_title body) \/
  missing (property pick_message body) \/
  outside urgencyEnum (property pick_urgency body) \/
  outside typeEnum (property pick_type body).

(** Such a create is answered in the 400 range and stores nothing. *)
Definition create_as_specified (now : Z) (oid : ObjectId) (user : Identity)
  (body : Body) (s : Store) : Prop :=
  rejected body ->
  400 <= res_status (fst (POST_create now oid user body s)) < 500 /\
  snd (POST_create now oid user body s) = s.

(** Every stored [views] is a count, whatever the history. *)
Definition views_as_specified (history : list Request) : Prop :=
  forall b, In b (run history) -> isCount (views b).

(** ** Sample data *)

Definition alice : Identity := mkIdentity "aaaaaaaaaaaaaaaaaaaaaaaa" "user".

Definition bob : Identity := mkIdentity "bbbbbbbbbbbbbbbbbbbbbbbb" "user".

Definition noticeId : ObjectId := "0123456789abcdef01234567".

(** A notice that expires at time 150. *)
Definition notice : Body :=
  [Key_title (Value "Lift out of order");
   Key_message (Value "Use the stairs");
   Key_tags (Value ["Maintenance"]);
   Key_expiryDate (Value 150)].

(** A notice that does not expire. *)
Definition memo : Body :=
  [Key_title (Value "Minutes"); Key_message (Value "See the shared folder")].

(** The collection after [alice] posted the notice at time 100. *)
Definition board : Store := run [Create 100 noticeId alice notice].

(** The notice as it is stored then. *)
Definition posted : Broadcast := hd (defaults "") board.

(** The same, the notice archived by its owner at time 120. *)
Definition archive : Store :=
  run [Create 100 noticeId alice notice;
       Update 120 noticeId alice [Key_status (Value "archived")]].

(** A history in which the owner writes a negative [views]. *)
Definition spoiled : list Request :=
  [Create 100 noticeId alice notice;
   Update 120 noticeId alice [Key_views (Value (-5))]].

(** A history in which the owner writes [null] to [views]. *)
Definition voided : list Request :=
  [Create 100 noticeId alice notice;
   Update 120 noticeId alice [Key_views Null]].


(** A history of reads and of an update that keeps [views] a count. *)
Definition counted : list Request :=
  [Create 100 noticeId alice notice;
   Read 110 noticeId;
   Update 120 noticeId alice [Key_views (Value 7); Key_status (Value "active")];
   Read 130 noticeId].

Definition memoId (i : nat) : ObjectId :=
  toHexString (String (ascii_of_nat i) "abcdefghijk").

(** Forty-five memos, posted at times 0 to 44. *)
Definition fortyFive : Store :=
  run (map (fun i => Create (Z.of_nat i) (memoId i) alice memo) (seq 0 45)).

Definition pageOf (n : Z) : ListQuery :=
  mkListQuery (Some n) (Some 20) None None None None None.

(** [?status=]: the status is given, and empty. *)
Definition anyStatus : ListQuery :=
  mkListQuery None None None None (Some "") None None.

Definition searchFor (term : string) : ListQuery :=
  mkListQuery None None None None None (Some term) None.

(** The items of a response. *)
Definition itemsOf (r : Response) : list Broadcast :=
  match res_data r with
  | Items l _ => l
  | _ => []
  end.

Definition paginationOf (r : Response) : Pagination :=
  match res_data r with
  | Items _ p => p
  | _ => mkPagination 0 0 0 None
  end.

Definition carol : User :=
  mkUser "cccccccccccccccccccccccc" "carol" "carol@example.org" "s3cret"
    "user" false None "".

Definition dave : User :=
  mkUser "dddddddddddddddddddddddd" "dave" "dave@example.org" "hunter2"
    "user" true None "".

Definition members : Users := [carol; dave].

(** ** Statistics ([GET /stats/summary])

    The pipeline has one [$facet] stage with five branches over the whole
    collection.  A [$count] stage emits one document [{ count }], and none
    at all when no document reaches it; a [$group] stage emits one document
    per key, here in the order in which the keys are first met (the
    database promises no order). *)

Record Group : Type := mkGroup {
  group_id : option string;
  count : Z
}.

(** [{ $project: { title: 1, createdAt: 1, urgency: 1 } }]; [_id] stays. *)
Record Activity : Type := mkActivity {
  activity_id : ObjectId;
  activity_title : option string;
  activity_createdAt : Z;
  activity_urgency : option string
}.

Record Stats : Type := mkStats {
  totalBroadcasts : list Z;
  byUrgency : list Group;
  byType : list Group;
  activeBroadcasts : list Z;
  recentActivity : list Activity
}.

(** [{ $count: 'count' }]. *)
Definition countStage (l : list Broadcast) : list Z :=
  match l with
  | [] => []
  | _ :: _ => [Z.of_nat (List.length l)]
  end.

Definition sameKey (k k' : option string) : bool :=
  option_eqb String.eqb k k'.

(** One more document under the key [k]. *)
Fixpoint addTo (k : option string) (groups : list Group) : list Group :=
  match groups with
  | [] => [mkGroup k 1]
  | g :: rest =>
      if sameKey (group_id g) k then mkGroup (group_id g) (count g + 1) :: rest
      else g :: addTo k rest
  end.

(** [{ $group: { _id: '$path', count: { $sum: 1 } } }]. *)
Definition groupBy (key : Broadcast -> option string) (l : list Broadcast)
  : list Group :=
  fold_left (fun groups b => addTo (key b) groups) l [].

(** [{ $match: { status: 'active' } }]. *)
Definition isActiveBroadcast (b : Broadcast) : bool :=
  equals (Some "active") (status b).

Definition project (b : Broadcast) : Activity :=
  mkActivity (_id b) (title b) (createdAt b) (urgency b).

Definition aggregate (s : Store) : Stats :=
  mkStats
    (countStage s)
    (groupBy urgency s)
    (groupBy type s)
    (countStage (filter isActiveBroadcast s))
    (map project (firstn 5 (sortDocs newestFirst s))).

(** A response whose [data] is of type [D]. *)
Record Reply (D : Type) : Type := mkReply {
  reply_status : Z;
  reply_success : bool;
  reply_message : option string;
  reply_data : option D
}.

Arguments mkReply {D} _ _ _ _.
Arguments reply_status {D} _.
Arguments reply_success {D} _.
Arguments reply_message {D} _.
Arguments reply_data {D} _.

Definition replyError {D : Type} (code : Z) (msg : string) : Reply D :=
  mkReply code false (Some msg) None.

(** [GET /stats/summary]. *)
Definition GET_stats (s : Store) : Reply Stats * Store :=
  (mkReply 200 true None (Some (aggregate s)), s).

(** The sum of the counts of a list of groups. *)
Definition sumCounts (groups : list Group) : Z :=
  fold_right Z.add 0 (map count groups).

(** The number of documents of [l] whose key is [k]. *)
Definition occurrences (key : Broadcast -> option string) (k : option string)
  (l : list Broadcast) : Z :=
  Z.of_nat (List.length (filter (fun b => sameKey (key b) k) l)).

(** The count that a list of groups holds for the key [k], 0 when no
    group has the key. *)
Definition countOf (k : option string) (groups : list Group) : Z :=
  match List.find (fun g => sameKey (group_id g) k) groups with
  | Some g => count g
  | None => 0
  end.

(** ** Accounts ([POST /register], [GET /me], [PUT /me]) *)

(** What a registration answers: the token and [{ id, username, email,
    role }]. *)
Record Registration : Type := mkRegistration {
  registration_token : Token;
  registration_id : ObjectId;
  registration_username : string;
  registration_email : string;
  registration_role : string
}.

(** A user as [select('-password')] shows it. *)
Record Account : Type := mkAccount {
  account_id : ObjectId;
  account_username : string;
  account_email : string;
  account_role : string;
  account_isActive : bool;
  account_lastLogin : option Z;
  account_preferences : string
}.

Definition withoutPassword (u : User) : Account :=
  mkAccount (user_id u) (username u) (email u) (role u) (isActive u)
    (lastLogin u) (preferences u).

(** [User.findOne({ $or: [{ email }, { username }] })]. *)
Definition findOneByEmailOrUsername (users : Users)
  (email_ username_ : string) : option User :=
  List.find
    (fun u => String.eqb (email u) email_ || String.eqb (username u) username_)
    users.

(** [User.findById(id)]. *)
Definition findUserById (users : Users) (id_ : string)
  : Result (option User) :=
  match castObjectId id_ with
  | Some oid => Returned (List.find (fun u => String.eqb (user_id u) oid) users)
  | None => Threw CastError
  end.

(** [GET /me]: there is no test for [null]. *)
Definition GET_me (user : Identity) (users : Users)
  : Reply (option Account) * Users :=
  match findUserById users (id user) with
  | Returned found =>
      (mkReply 200 true None (Some (option_map withoutPassword found)), users)
  | Threw _ => (replyError 500 "Server error", users)
  end.

(** The body of [PUT /me]: keys with their values, cast to strings. *)
Definition Updates : Type := list (string * string).

Definition allowedUpdates : list string := ["username"; "email"; "preferences"].

(** The loop that fills [filteredUpdates]. *)
Definition filterUpdates (updates : Updates) : Updates :=
  filter (fun kv => existsb (String.eqb (fst kv)) allowedUpdates) updates.

Definition set_username (v : string) (u : User) : User :=
  mkUser (user_id u) v (email u) (password u) (role u) (isActive u)
    (lastLogin u) (preferences u).

Definition set_email (v : string) (u : User) : User :=
  mkUser (user_id u) (username u) v (password u) (role u) (isActive u)
    (lastLogin u) (preferences u).

Definition set_preferences (v : string) (u : User) : User :=
  mkUser (user_id u) (username u) (email u) (password u) (role u)
    (isActive u) (lastLogin u) v.

Definition set_password (v : string) (u : User) : User :=
  mkUser (user_id u) (username u) (email u) v (role u) (isActive u)
    (lastLogin u) (preferences u).

Definition set_role (v : string) (u : User) : User :=
  mkUser (user_id u) (username u) (email u) (password u) v (isActive u)
    (lastLogin u) (preferences u).

Definition set_isActive (v : bool) (u : User) : User :=
  mkUser (user_id u) (username u) (email u) (password u) (role u) v
    (lastLogin u) (preferences u).

(** The cast of a string to a Boolean path; other strings do not cast. *)
Definition castBoolean (v : string) : option bool :=
  if existsb (String.eqb v) ["true"; "1"; "yes"] then Some true
  else if existsb (String.eqb v) ["false"; "0"; "no"] then Some false
  else None.

(** [{ $set: { key: value } }] on a user, for the paths a profile update
    can reach and for three it must not; a key that is no path is
    dropped. *)
Definition setUserPath (u : User) (kv : string * string) : User :=
  let (key, v) := kv in
  if String.eqb key "username" then set_username v u
  else if String.eqb key "email" then set_email v u
  else if String.eqb key "preferences" then set_preferences v u
  else if String.eqb key "password" then set_password v u
  else if String.eqb key "role" then set_role v u
  else if String.eqb key "isActive" then
    match castBoolean v with
    | Some b => set_isActive b u
    | None => u
    end
  else u.

(** The update of the first user with the id; [None] when there is none. *)
Fixpoint updateById (oid : ObjectId) (updates : Updates) (users : Users)
  : option (User * Users) :=
  match users with
  | [] => None
  | x :: rest =>
      if String.eqb (user_id x) oid then
        let x' := fold_left setUserPath updates x in Some (x', x' :: rest)
      else
        match updateById oid updates rest with
        | Some (x', rest') => Some (x', x :: rest')
        | None => None
        end
  end.

Section Accounts.

(** [new User({ username, email, password })] followed by [user.save()],
    both of the User model: the stored user, or the fault of the save. *)
Variable createUser : string -> string -> string -> Users -> Result User.

(** The validators that [runValidators: true] runs on an update, and the
    indexes of the collection: whether the update is let through. *)
Variable updateAccepted : Updates -> Users -> bool.

(** [POST /register]. *)
Definition POST_register (now : Z) (username_ email_ password_ : string)
  (users : Users) : Reply Registration * Users :=
  match findOneByEmailOrUsername users email_ username_ with
  | Some _ => (replyError 400 "User already exists", users)
  | None =>
      match createUser username_ email_ password_ users with
      | Returned user =>
          (mkReply 201 true (Some "Registration successful")
             (Some (mkRegistration (sign user now) (user_id user)
                      (username user) (email user) (role user))),
           users ++ [user])
      | Threw _ => (replyError 500 "Server error", users)
      end
  end.

(** [User.findByIdAndUpdate(id, update, { new: true, runValidators:
    true })]. *)
Definition findByIdAndUpdate (id_ : string) (updates : Updates)
  (users : Users) : Result (option User * Users) :=
  match castObjectId id_ with
  | None => Threw CastError
  | Some oid =>
      if updateAccepted updates users then
        match updateById oid updates users with
        | Some (u, users') => Returned (Some u, users')
        | None => Returned (None, users)
        end
      else Threw ValidationError
  end.

(** [PUT /me]. *)
Definition PUT_me (user : Identity) (updates : Updates) (users : Users)
  : Reply (option Account) * Users :=
  match findByIdAndUpdate (id user) (filterUpdates updates) users with
  | Returned (found, users') =>
      (mkReply 200 true (Some "Profile updated successfully")
         (Some (option_map withoutPassword found)), users')
  | Threw _ => (replyError 500 "Server error", users)
  end.

End Accounts.

(** The fields of a user that a profile update must leave alone. *)
Definition guarded (u : User) : ObjectId * string * string * bool * option Z :=
  (user_id u, password u, role u, isActive u, lastLogin u).

(** ** Notions used to state properties of the handlers *)

(** The key of an entry of a body. *)
Definition keyName (e : Entry) : string :=
  match e with
  | Key_title _ => "title"
  | Key_message _ => "message"
  | Key_urgency _ => "urgency"
  | Key_type _ => "type"
  | Key_tags _ => "tags"
  | Key_createdBy _ => "createdBy"
  | Key_expiryDate _ => "expiryDate"
  | Key_status _ => "status"
  | Key_views _ => "views"
  | Key_priority _ => "priority"
  end.

(** Whether a body carries a key. *)
Definition hasKey (key : string) (body : Body) : bool :=
  existsb (fun e => String.eqb (keyName e) key) body.

(** The broadcast that a read at [now] saves for the stored [b]. *)
Definition afterRead (now : Z) (b : Broadcast) : Broadcast :=
  preSave now
    (timestamps now
       (setEntry (loaded b) (Key_views (Value (toNumber (views b) + 1))))).



(** No two of the documents tie under the sort, so that the order of the
    result is the same every time the query is run. *)
Fixpoint tieFree (spec : SortSpec) (l : list Broadcast) : bool :=
  match l with
  | [] => true
  | a :: rest =>
      forallb (fun b => match compareDocs spec a b with
                        | Eq => false
                        | _ => true
                        end) rest
      && tieFree spec rest
  end.

(** The query [q] asked for another page. *)
Definition atPage (q : ListQuery) (n : Z) : ListQuery :=
  mkListQuery (Some n) (q_limit q) (q_type q) (q_urgency q) (q_status q)
    (q_search q) (q_sort q).

(** A model of the User constructor to run the handlers with: role [user],
    active, the password kept as it is. *)
Definition enroll (username_ email_ password_ : string) (users : Users)
  : Result User :=
  Returned
    (mkUser (memoId (List.length users)) username_ email_ password_ "user"
       true None "").

Definition acceptAll (updates : Updates) (users : Users) : bool := true.

Definition daveIdentity : Identity := mkIdentity (user_id dave) "user".

(** The first create of the sample histories, and the state after two. *)
Definition firstPost : Response * Store :=
  POST_create 100 noticeId alice notice [].

Definition twoNotes : list Request :=
  [Create 100 noticeId alice notice; Create 101 (memoId 1) bob memo].

(** [alice] deletes her notice. *)
Definition removal : Response * Store :=
  DELETE_id noticeId alice (run twoNotes).

(** The notice after a read at time 200 marked it [expired]. *)
Definition lapsed : list Request :=
  [Create 100 noticeId alice notice; Read 200 noticeId].

(** [alice] moves the expiry of the lapsed notice to time 900. *)
Definition extension : Response * Store :=
  PUT_id 300 noticeId alice [Key_expiryDate (Value 900)] (run lapsed).

(** [alice] changes the title of her notice. *)
Definition retitle : Response * Store :=
  PUT_id 120 noticeId alice [Key_title (Value "Lift repaired")] (run twoNotes).

(** A body that asks for more than a profile update grants. *)
Definition grab : Updates :=
  [("username", "root"); ("role", "admin"); ("isActive", "yes");
   ("password", "x")].

(** * Properties *)

(** ** The model on small inputs *)

Example trim_spaces : trim "  Lift out of order " = "Lift out of order".
Proof. reflexivity. Qed.

Example castObjectId_hex :
  castObjectId "0123456789ABCDEF01234567" = Some noticeId.
Proof. reflexivity. Qed.

Example castObjectId_bytes :
  castObjectId "abcdefghijkl" = Some "6162636465666768696a6b6c".
Proof. reflexivity. Qed.

Example castObjectId_short : castObjectId "abc" = None.
Proof. reflexivity. Qed.

Example ceilDiv_45_20 : ceilDiv 45 20 = 3.
Proof. reflexivity. Qed.

Example ceilDiv_40_20 : ceilDiv 40 20 = 2.
Proof. reflexivity. Qed.

(** Posted at 100 with an expiry at 150, the notice is stored [active]; a
    create at 200 with the same body is stored [expired]. *)
Example posted_active : status posted = Some "active".
Proof. reflexivity. Qed.

Example late_create_expired :
  map status (snd (POST_create 200 noticeId alice notice [])) =
  [Some "expired"].
Proof. vm_compute. reflexivity. Qed.

(** A create takes [status] and [views] from the schema, not the body. *)
Example create_ignores_views :
  map views
    (snd (POST_create 100 noticeId alice (Key_views (Value 9) :: notice) []))
  = [Some 0].
Proof. vm_compute. reflexivity. Qed.

(** The sample matcher: a full stop matches any character, a letter
    matches in either case, a star is refused. *)
Example dotRegex_cases :
  option_map (fun re => (re "abc", re "")) (dotRegex ".") = Some (true, false) /\
  option_map (fun re => re "Maintenance") (dotRegex "maint") = Some true /\
  option_map (fun re => re "abc") (dotRegex "a*") = None.
Proof. vm_compute. auto. Qed.

(** ** The collection *)

Lemma hasId_true (oid : ObjectId) (b : Broadcast) :
  hasId oid b = true -> _id b = oid.
Proof. unfold hasId. intros H. now apply String.eqb_eq. Qed.

Lemma hasId_refl (b : Broadcast) : hasId (_id b) b = true.
Proof. unfold hasId. apply String.eqb_refl. Qed.

Lemma lookup_id (s : Store) (oid : ObjectId) (b : Broadcast) :
  lookup s oid = Some b -> _id b = oid.
Proof.
  unfold lookup. intros H. apply find_some in H. now apply hasId_true.
Qed.

Lemma lookup_In (s : Store) (oid : ObjectId) (b : Broadcast) :
  lookup s oid = Some b -> In b s.
Proof. unfold lookup. intros H. now apply find_some in H. Qed.

Lemma lookup_none (s : Store) (oid : ObjectId) :
  (forall b, In b s -> _id b <> oid) -> lookup s oid = None.
Proof.
  intros H. unfold lookup.
  destruct (List.find (hasId oid) s) as [b|] eqn:E; [|reflexivity].
  apply find_some in E. destruct E as [Hin Hid].
  apply hasId_true in Hid. now apply H in Hin.
Qed.

Lemma lookup_replaceOne (s : Store) (b x : Broadcast) :
  lookup s (_id b) = Some x -> lookup (replaceOne b s) (_id b) = Some b.
Proof.
  unfold lookup. induction s as [|y rest IH]; simpl; [discriminate|].
  destruct (hasId (_id b) y) eqn:E; simpl.
  - now rewrite hasId_refl.
  - rewrite E. exact IH.
Qed.

Lemma In_replaceOne (s : Store) (b x : Broadcast) :
  In x (replaceOne b s) -> x = b \/ In x s.
Proof.
  induction s as [|y rest IH]; simpl; [tauto|].
  destruct (hasId (_id b) y); simpl; intros [H|H]; auto.
  apply IH in H. tauto.
Qed.

Lemma In_deleteOne (s : Store) (oid : ObjectId) (x : Broadcast) :
  In x (deleteOne oid s) -> In x s.
Proof.
  induction s as [|y rest IH]; simpl; [tauto|].
  destruct (hasId oid y); simpl; [tauto|]. intros [H|H]; auto.
Qed.

(** ** Assignments and hooks *)

Ltac break_assign :=
  unfold assign;
  repeat match goal with
         | |- context [match ?v with Null => _ | Value _ => _ | Uncastable => _ end] =>
             destruct v
         | |- context [if option_eqb ?e ?x ?y then _ else _] =>
             destruct (option_eqb e x y)
         end.

Lemma setEntry_id (d : Document) (e : Entry) :
  _id (fields (setEntry d e)) = _id (fields d).
Proof. destruct e; simpl; break_assign; reflexivity. Qed.

Lemma setEntry_isNew (d : Document) (e : Entry) :
  isNew (setEntry d e) = isNew d.
Proof. destruct e; simpl; break_assign; reflexivity. Qed.

Lemma setEntries_id (updates : Body) (d : Document) :
  _id (fields (fold_left setEntry updates d)) = _id (fields d).
Proof.
  revert d. induction updates as [|e rest IH]; intros d; simpl; [reflexivity|].
  rewrite IH. apply setEntry_id.
Qed.

Lemma setEntries_isNew (updates : Body) (d : Document) :
  isNew (fold_left setEntry updates d) = isNew d.
Proof.
  revert d. induction updates as [|e rest IH]; intros d; simpl; [reflexivity|].
  rewrite IH. apply setEntry_isNew.
Qed.

Lemma timestamps_fields (now : Z) (d : Document) :
  let b := timestamps now d in
  _id b = _id (fields d) /\ title b = title (fields d) /\
  message b = message (fields d) /\ urgency b = urgency (fields d) /\
  type b = type (fields d) /\ tags b = tags (fields d) /\
  createdBy b = createdBy (fields d) /\
  expiryDate b = expiryDate (fields d) /\ status b = status (fields d) /\
  views b = views (fields d) /\ priority b = priority (fields d).
Proof.
  unfold timestamps. destruct (isNew d); [|destruct (isModified d)];
    simpl; repeat split; reflexivity.
Qed.

Lemma timestamps_validate (now : Z) (d : Document) :
  validate (timestamps now d) = validate (fields d).
Proof.
  unfold timestamps. destruct (isNew d); [|destruct (isModified d)];
    reflexivity.
Qed.

Lemma preSave_fields (now : Z) (b : Broadcast) :
  _id (preSave now b) = _id b /\ expiryDate (preSave now b) = expiryDate b /\
  views (preSave now b) = views b /\ createdBy (preSave now b) = createdBy b.
Proof.
  unfold preSave. destruct (expiryDate b) as [t|] eqn:E; [|now rewrite E].
  destruct (t <? now); simpl; now rewrite E.
Qed.

(** The hook leaves a document whose expiry lies in the past [expired]. *)
Lemma preSave_expired (now t : Z) (b : Broadcast) :
  expiryDate b = Some t -> t < now -> status (preSave now b) = Some "expired".
Proof.
  intros E H. unfold preSave. rewrite E.
  apply Z.ltb_lt in H. now rewrite H.
Qed.

Lemma preSave_validate (now : Z) (b : Broadcast) :
  validate b = true -> validate (preSave now b) = true.
Proof.
  intros V. unfold preSave. destruct (expiryDate b) as [t|]; [|exact V].
  destruct (t <? now); [|exact V].
  unfold validate in *. simpl.
  repeat (apply andb_prop in V; destruct V as [V ?]).
  repeat (apply andb_true_intro; split); auto.
Qed.

(** What a successful save of a loaded document wrote. *)
Lemma save_existing (now : Z) (d : Document) (s : Store) (b : Broadcast)
  (s' : Store) :
  isNew d = false ->
  save now d s = Returned (b, s') ->
  invalidated d = false /\ validate (fields d) = true /\
  b = preSave now (timestamps now d) /\ s' = replaceOne b s.
Proof.
  unfold save. intros N.
  destruct (invalidated d); simpl; [discriminate|].
  destruct (validate (fields d)); simpl; [|discriminate].
  rewrite N. intros H. inversion H. subst. auto.
Qed.

Lemma save_total (now : Z) (d : Document) (s : Store) :
  isNew d = false -> invalidated d = false -> validate (fields d) = true ->
  save now d s =
    Returned (preSave now (timestamps now d),
              replaceOne (preSave now (timestamps now d)) s).
Proof.
  intros N I V. unfold save. now rewrite I, V, N.
Qed.

Lemma save_throws (now : Z) (d : Document) (s : Store) :
  validate (fields d) = false -> save now d s = Threw ValidationError.
Proof.
  intros V. unfold save. rewrite V. now rewrite orb_true_r.
Qed.

(** ** Update and delete *)

(** C1: when an update succeeds and the expiry date of the record, after
    the caller's fields have been applied, is set and earlier than the
    time of the write, the stored status is [expired], whatever status the
    payload carried. *)
Theorem C1_update_forces_expired (now : Z) (id_ : string) (user : Identity)
  (updates : Body) (s : Store) (res : Response) (s' : Store) :
  PUT_id now id_ user updates s = (res, s') ->
  res_status res = 200 ->
  exists b b',
    findById s id_ = Returned (Some b) /\
    lookup s' (_id b) = Some b' /\
    res_data res = Item b' /\
    expiryDate b' =
      expiryDate (fields (fold_left setEntry updates (loaded b))) /\
    (forall t, expiryDate b' = Some t -> t < now ->
               status b' = Some "expired").
Proof.
  unfold PUT_id, findById.
  destruct (castObjectId id_) as [oid|]; simpl;
    [|intros H; inversion H; subst; discriminate].
  destruct (lookup s oid) as [b|] eqn:L; simpl;
    [|intros H; inversion H; subst; discriminate].
  destruct (createdBy b) as [owner|]; simpl;
    [|intros H; inversion H; subst; discriminate].
  destruct (refused owner user); simpl;
    [intros H; inversion H; subst; discriminate|].
  destruct (save now (fold_left setEntry updates (loaded b)) s)
    as [[b' s1]|e] eqn:S; simpl;
    [|intros H; inversion H; subst; discriminate].
  intros H _. inversion H; subst res s'. clear H.
  apply save_existing in S; [|now rewrite setEntries_isNew].
  destruct S as (_ & _ & Hb & Hs).
  pose proof (lookup_id _ _ _ L) as Hid.
  set (d := fold_left setEntry updates (loaded b)) in *.
  destruct (preSave_fields now (timestamps now d)) as (Pid & Pexp & _ & _).
  destruct (timestamps_fields now d) as (Tid & _ & _ & _ & _ & _ & _ & Texp & _).
  assert (Hid' : _id b' = _id b).
  { rewrite Hb, Pid, Tid. unfold d. now rewrite setEntries_id. }
  exists b, b'. repeat split.
  - rewrite Hs, <- Hid'. apply lookup_replaceOne with (x := b).
    now rewrite Hid', Hid.
  - now rewrite Hb, Pexp, Texp.
  - intros t E Lt. rewrite Hb in *. rewrite Pexp in E.
    now apply preSave_expired with (t := t).
Qed.

(** C2: for an existing broadcast, a caller whose id differs from the
    record's [createdBy] and whose role is not [admin] is answered 403 by
    both update and delete, and the collection is left as it was. *)
Theorem C2_non_owner_refused (now : Z) (id_ : string) (user : Identity)
  (updates : Body) (s : Store) (b : Broadcast) (owner : ObjectId) :
  findById s id_ = Returned (Some b) ->
  createdBy b = Some owner ->
  id user <> owner ->
  identity_role user <> "admin" ->
  PUT_id now id_ user updates s = (notAuthorized, s) /\
  DELETE_id id_ user s = (notAuthorized, s) /\
  res_status notAuthorized = 403.
Proof.
  intros F C Hid Hrole.
  assert (R : refused owner user = true).
  { unfold refused. apply andb_true_intro. split; apply negb_true_iff.
    - apply String.eqb_neq. congruence.
    - now apply String.eqb_neq. }
  unfold PUT_id, DELETE_id. rewrite F. simpl. rewrite C. simpl.
  rewrite R. simpl. auto.
Qed.

(** ** Reading one broadcast *)

Ltac pow53 := change (2 ^ 53) with 9007199254740992 in *.

(** Up to [2 ^ 53] in magnitude every integer is a double. *)
Lemma toDouble_exact (z : Z) : Z.abs z <= 2 ^ 53 -> toDouble z = z.
Proof.
  intros H. unfold toDouble.
  destruct (Z.abs z <? 2 ^ 53) eqn:E; [reflexivity|].
  apply Z.ltb_ge in E.
  assert (C : z = 2 ^ 53 \/ z = - 2 ^ 53) by (pow53; lia).
  destruct C as [C|C]; rewrite C; vm_compute; reflexivity.
Qed.

(** Rounding does not take a number of [2 ^ 53] or more below [2 ^ 53]. *)
Lemma toDouble_ge (z : Z) : 2 ^ 53 <= z -> 2 ^ 53 <= toDouble z.
Proof.
  intros H. unfold toDouble.
  assert (Hz : 0 < z) by (pow53; lia).
  rewrite Z.abs_eq by lia.
  destruct (z <? 2 ^ 53) eqn:E; [apply Z.ltb_lt in E; lia|]. clear E.
  assert (Hl : 53 <= Z.log2 z).
  { rewrite <- (Z.log2_pow2 53) by lia. now apply Z.log2_le_mono. }
  destruct (Z.log2_spec z Hz) as [Lo _].
  remember (Z.log2 z - 52) as e eqn:He.
  assert (Hlog : Z.log2 z = 52 + e) by lia.
  rewrite Hlog, Z.pow_add_r in Lo by lia.
  assert (Hu : 2 <= 2 ^ e).
  { change 2 with (2 ^ 1) at 1. apply Z.pow_le_mono_r; lia. }
  assert (Hq : 2 ^ 52 <= z / 2 ^ e).
  { apply Z.div_le_lower_bound; [lia|]. rewrite Z.mul_comm. exact Lo. }
  rewrite Z.sgn_pos by exact Hz.
  set (q := z / 2 ^ e) in *. set (r := z mod 2 ^ e).
  assert (Hq' : q <=
    (if 2 * r <? 2 ^ e then q
     else if 2 ^ e <? 2 * r then q + 1
     else if Z.even q then q else q + 1)).
  { destruct (2 * r <? 2 ^ e); [lia|].
    destruct (2 ^ e <? 2 * r); [lia|]. destruct (Z.even q); lia. }
  revert Hq'.
  generalize (if 2 * r <? 2 ^ e then q
              else if 2 ^ e <? 2 * r then q + 1
              else if Z.even q then q else q + 1).
  intros q' Hq'. change (2 ^ 53) with (2 ^ 52 * 2).
  change (2 ^ 52) with 4503599627370496 in *. nia.
Qed.

Lemma toDouble_nonneg (z : Z) : 0 <= z -> 0 <= toDouble z.
Proof.
  intros H. destruct (Z.lt_ge_cases z (2 ^ 53)) as [L|L].
  - rewrite toDouble_exact; [exact H|]. rewrite Z.abs_eq; lia.
  - apply toDouble_ge in L. pow53. lia.
Qed.


Example toDouble_ties_to_even : toDouble (2 ^ 53 + 3) = 2 ^ 53 + 4.
Proof. vm_compute. reflexivity. Qed.

(** The document that a read saves: its [views] is the rounded sum, and it
    is modified only when that differs from the stored value. *)
Lemma read_document (b : Broadcast) :
  let v := Some (toDouble (toNumber (views b) + 1)) in
  setEntry (loaded b) (Key_views (Value (toNumber (views b) + 1))) =
  if option_eqb Z.eqb v (views b) then loaded b
  else mkDocument (set_views v b) false true false.
Proof. reflexivity. Qed.

Lemma Z_eqb_true (a b : Z) : (a =? b) = true -> a = b.
Proof. apply Z.eqb_eq. Qed.

Lemma option_eqb_eq {A : Type} (eqb : A -> A -> bool) (x y : option A) :
  (forall a b, eqb a b = true -> a = b) ->
  option_eqb eqb x y = true -> x = y.
Proof.
  intros H. destruct x, y; simpl; intros E; try discriminate; auto.
  f_equal. now apply H.
Qed.

(** What a read stores, path by path. *)
Lemma afterRead_fields (now : Z) (b : Broadcast) :
  let b' := afterRead now b in
  _id b' = _id b /\ title b' = title b /\ message b' = message b /\
  urgency b' = urgency b /\ type b' = type b /\ tags b' = tags b /\
  createdBy b' = createdBy b /\ expiryDate b' = expiryDate b /\
  priority b' = priority b /\ createdAt b' = createdAt b /\
  status b' = status (preSave now b) /\
  views b' = Some (toDouble (toNumber (views b) + 1)) /\
  updatedAt b' =
    (if option_eqb Z.eqb (Some (toDouble (toNumber (views b) + 1))) (views b)
     then updatedAt b else now).
Proof.
  unfold afterRead. rewrite read_document. cbv zeta.
  destruct (option_eqb Z.eqb (Some (toDouble (toNumber (views b) + 1)))
              (views b)) eqn:E.
  - apply option_eqb_eq in E; [|exact Z_eqb_true].
    unfold timestamps, loaded, preSave. cbn [isNew isModified fields].
    destruct (expiryDate b) as [t|] eqn:X;
      [destruct (t <? now)|]; cbn; rewrite ?X; repeat split; auto.
  - unfold timestamps, preSave. cbn [isNew isModified fields].
    cbn [expiryDate set_updatedAt set_views].
    destruct (expiryDate b) as [t|] eqn:X;
      [destruct (t <? now)|]; cbn; rewrite ?X; repeat split; auto.
Qed.







(** ** Create *)

Lemma setProperty_frame {A B : Type} (get : Broadcast -> B)
  (key : Supplied A -> Entry) (v : option (Supplied A)) (d : Document) :
  (forall x d', get (fields (setEntry d' (key x))) = get (fields d')) ->
  get (fields (setProperty key v d)) = get (fields d).
Proof. intros H. destruct v; simpl; [apply H|reflexivity]. Qed.

Ltac frame get :=
  repeat first
    [ rewrite (setProperty_frame get)
        by (intros; simpl; break_assign; reflexivity)
    | match goal with
      | |- context [get (fields (setEntry ?d (Key_createdBy ?v)))] =>
          replace (get (fields (setEntry d (Key_createdBy v))))
            with (get (fields d))
            by (simpl; break_assign; reflexivity)
      end ].

Lemma setProperty_isNew {A : Type} (key : Supplied A -> Entry)
  (v : option (Supplied A)) (d : Document) :
  isNew (setProperty key v d) = isNew d.
Proof. destruct v; simpl; [apply setEntry_isNew|reflexivity]. Qed.

Lemma newBroadcast_isNew (oid : ObjectId)
  (t m u ty : option (Supplied string)) (tg : option (Supplied (list string)))
  (e : option (Supplied Z)) (c : Supplied ObjectId) :
  isNew (newBroadcast oid t m u ty tg e c) = true.
Proof.
  unfold newBroadcast. now rewrite setEntry_isNew, !setProperty_isNew.
Qed.

Lemma newBroadcast_views (oid : ObjectId)
  (t m u ty : option (Supplied string)) (tg : option (Supplied (list string)))
  (e : option (Supplied Z)) (c : Supplied ObjectId) :
  views (fields (newBroadcast oid t m u ty tg e c)) = Some 0.
Proof. unfold newBroadcast. frame views. reflexivity. Qed.

(** What a path holds after [doc[path] = v]. *)
Lemma assign_get {A : Type} (eqb : A -> A -> bool)
  (get : Broadcast -> option A) (put : option A -> Broadcast -> Broadcast)
  (setter : A -> A) (v : Supplied A) (d : Document) :
  (forall a b, eqb a b = true -> a = b) ->
  (forall x b, get (put x b) = x) ->
  get (fields (assign eqb get put setter v d)) =
  match v with
  | Null => None
  | Value a => Some (setter a)
  | Uncastable => get (fields d)
  end.
Proof.
  intros Heq Hput. unfold assign. destruct v as [|a|]; [| |reflexivity].
  - destruct (option_eqb eqb None (get (fields d))) eqn:E; simpl; auto.
    symmetry. now apply (option_eqb_eq eqb).
  - destruct (option_eqb eqb (Some (setter a)) (get (fields d))) eqn:E;
      simpl; auto.
    symmetry. now apply (option_eqb_eq eqb).
Qed.

Lemma string_eqb_true (a b : string) : String.eqb a b = true -> a = b.
Proof. apply String.eqb_eq. Qed.

Lemma newBroadcast_title (oid : ObjectId)
  (t m u ty : option (Supplied string)) (tg : option (Supplied (list string)))
  (e : option (Supplied Z)) (c : Supplied ObjectId) :
  title (fields (newBroadcast oid t m u ty tg e c)) =
  match t with
  | Some (Value x) => Some (trim x)
  | _ => None
  end.
Proof.
  unfold newBroadcast. frame title.
  destruct t as [v|]; [|reflexivity]. simpl.
  rewrite assign_get by (auto using string_eqb_true).
  destruct v; reflexivity.
Qed.

Lemma newBroadcast_message (oid : ObjectId)
  (t m u ty : option (Supplied string)) (tg : option (Supplied (list string)))
  (e : option (Supplied Z)) (c : Supplied ObjectId) :
  message (fields (newBroadcast oid t m u ty tg e c)) =
  match m with
  | Some (Value x) => Some (trim x)
  | _ => None
  end.
Proof.
  unfold newBroadcast. frame message.
  destruct m as [v|]; simpl.
  - rewrite assign_get by (auto using string_eqb_true).
    destruct v; try reflexivity. frame message. reflexivity.
  - frame message. reflexivity.
Qed.

Lemma newBroadcast_urgency (oid : ObjectId)
  (t m u ty : option (Supplied string)) (tg : option (Supplied (list string)))
  (e : option (Supplied Z)) (c : Supplied ObjectId) :
  urgency (fields (newBroadcast oid t m u ty tg e c)) =
  match u with
  | Some (Value x) => Some x
  | Some Null => None
  | _ => Some "medium"
  end.
Proof.
  unfold newBroadcast. frame urgency.
  destruct u as [v|]; simpl.
  - rewrite assign_get by (auto using string_eqb_true).
    destruct v; try reflexivity. frame urgency. reflexivity.
  - frame urgency. reflexivity.
Qed.

Lemma newBroadcast_type (oid : ObjectId)
  (t m u ty : option (Supplied string)) (tg : option (Supplied (list string)))
  (e : option (Supplied Z)) (c : Supplied ObjectId) :
  type (fields (newBroadcast oid t m u ty tg e c)) =
  match ty with
  | Some (Value x) => Some x
  | Some Null => None
  | _ => Some "announcement"
  end.
Proof.
  unfold newBroadcast. frame type.
  destruct ty as [v|]; simpl.
  - rewrite assign_get by (auto using string_eqb_true).
    destruct v; try reflexivity. frame type. reflexivity.
  - frame type. reflexivity.
Qed.

Lemma enum_outside (values : list string) (x : string) :
  ~ In x values -> enum values (Some x) = false.
Proof.
  intros H. simpl. apply not_true_is_false. intros E.
  apply existsb_exists in E. destruct E as (y & Hin & Heq).
  apply String.eqb_eq in Heq. subst y. auto.
Qed.

Lemma missing_required (v : option (Supplied string)) :
  missing v ->
  requiredString
    match v with
    | Some (Value x) => Some (trim x)
    | _ => None
    end = false.
Proof.
  intros [->|[->|(x & -> & E)]]; try reflexivity. simpl. now rewrite E.
Qed.

(** A rejected body gives a document that fails validation. *)
Lemma rejected_invalid (oid : ObjectId) (c : Supplied ObjectId) (body : Body) :
  rejected body ->
  validate
    (fields
       (newBroadcast oid (property pick_title body)
          (property pick_message body) (property pick_urgency body)
          (property pick_type body) (property pick_tags body)
          (property pick_expiryDate body) c)) = false.
Proof.
  intros R. unfold validate.
  rewrite !newBroadcast_title, !newBroadcast_message, newBroadcast_urgency,
    newBroadcast_type.
  destruct R as [M|[M|[(x & E & N)|(x & E & N)]]].
  - now rewrite (missing_required _ M).
  - rewrite (missing_required _ M). now rewrite !andb_false_r.
  - rewrite E, (enum_outside _ _ N). now rewrite !andb_false_r.
  - rewrite E, (enum_outside _ _ N). now rewrite !andb_false_r.
Qed.

(** C8 (amended): a create whose body lacks the title or the message, or
    carries an urgency or a type outside the enumeration of the schema,
    fails in [save] with a [ValidationError]; the handler answers it with
    the generic 500 response, and no broadcast is stored. *)
Theorem C8_create_rejected (now : Z) (oid : ObjectId) (user : Identity)
  (body : Body) (s : Store) :
  rejected body ->
  save now
    (newBroadcast oid (property pick_title body)
       (property pick_message body) (property pick_urgency body)
       (property pick_type body) (property pick_tags body)
       (property pick_expiryDate body) (castId (id user))) s
  = Threw ValidationError /\
  POST_create now oid user body s = (serverError, s) /\
  res_status serverError = 500.
Proof.
  intros R.
  pose proof (save_throws now _ s (rejected_invalid oid (castId (id user)) body R))
    as S.
  split; [exact S|]. split; [|reflexivity].
  unfold POST_create. now rewrite S.
Qed.

(** ** Histories *)

Lemma run_snoc (history : list Request) (r : Request) :
  run (history ++ [r]) = step (run history) r.
Proof. unfold run. now rewrite fold_left_app. Qed.

(** Where the documents of the next state come from: they were there, or
    they are what a successful [save] wrote. *)
Lemma step_docs (s : Store) (r : Request) (x : Broadcast) :
  In x (step s r) ->
  In x s \/
  exists now d,
    x = preSave now (timestamps now d) /\
    invalidated d = false /\ validate (fields d) = true /\
    match r with
    | Create _ oid user body =>
        d = newBroadcast oid (property pick_title body)
              (property pick_message body) (property pick_urgency body)
              (property pick_type body) (property pick_tags body)
              (property pick_expiryDate body) (castId (id user))
    | Read _ _ =>
        exists b, In b s /\
          d = setEntry (loaded b) (Key_views (Value (toNumber (views b) + 1)))
    | Update _ _ _ updates =>
        exists b, In b s /\ d = fold_left setEntry updates (loaded b)
    | Delete _ _ => False
    end.
Proof.
  destruct r as [now oid user body|now id_|now id_ user updates|id_ user];
    cbn [step].
  - unfold POST_create.
    set (d := newBroadcast _ _ _ _ _ _ _ _).
    unfold save.
    destruct (invalidated d) eqn:I; simpl; auto.
    destruct (validate (fields d)) eqn:V; simpl; auto.
    replace (isNew d) with true by (symmetry; apply newBroadcast_isNew).
    destruct (existsb _ s); simpl; auto.
    intros H. apply in_app_or in H. destruct H as [H|[H|[]]]; auto.
    right. exists now, d. auto.
  - unfold GET_id, findById.
    destruct (castObjectId id_) as [oid|]; cbn [bind tryCatch snd]; auto.
    destruct (lookup s oid) as [b|] eqn:L; cbn [bind tryCatch snd]; auto.
    set (d := setEntry (loaded b) _).
    destruct (save now d s) as [[b' s']|e] eqn:S; cbn [bind tryCatch snd];
      auto.
    apply save_existing in S; [|unfold d; now rewrite setEntry_isNew].
    destruct S as (I & V & Hb & Hs). subst s'.
    intros H. apply In_replaceOne in H. destruct H as [H|H]; auto.
    right. exists now, d. repeat split; auto; try congruence.
    exists b. split; [now apply lookup_In with (oid := oid)|reflexivity].
  - unfold PUT_id, findById.
    destruct (castObjectId id_) as [oid|]; cbn [bind tryCatch snd]; auto.
    destruct (lookup s oid) as [b|] eqn:L; cbn [bind tryCatch snd]; auto.
    destruct (createdBy b) as [owner|]; cbn [toString bind tryCatch snd];
      auto.
    destruct (refused owner user); cbn [bind tryCatch snd]; auto.
    set (d := fold_left setEntry updates (loaded b)).
    destruct (save now d s) as [[b' s']|e] eqn:S; cbn [bind tryCatch snd];
      auto.
    apply save_existing in S; [|unfold d; now rewrite setEntries_isNew].
    destruct S as (I & V & Hb & Hs). subst s'.
    intros H. apply In_replaceOne in H. destruct H as [H|H]; auto.
    right. exists now, d. repeat split; auto; try congruence.
    exists b. split; [now apply lookup_In with (oid := oid)|reflexivity].
  - unfold DELETE_id, findById.
    destruct (castObjectId id_) as [oid|]; cbn [bind tryCatch snd]; auto.
    destruct (lookup s oid) as [b|] eqn:L; cbn [bind tryCatch snd]; auto.
    destruct (createdBy b) as [owner|]; cbn [toString bind tryCatch snd];
      auto.
    destruct (refused owner user); cbn [bind tryCatch snd]; auto.
    intros H. left. unfold remove in H. now apply In_deleteOne in H.
Qed.

(** Every document of a reachable collection passes the validators. *)
Lemma run_valid (history : list Request) (b : Broadcast) :
  In b (run history) -> validate b = true.
Proof.
  revert b. induction history as [|r history IH] using rev_ind; intros b.
  - intros [].
  - rewrite run_snoc. intros H. apply step_docs in H.
    destruct H as [H|(now & d & -> & _ & V & _)]; auto.
    apply preSave_validate. now rewrite timestamps_validate.
Qed.


Lemma setEntry_count (d : Document) (e : Entry) :
  keepsCount e = true ->
  isCount (views (fields d)) -> isCount (views (fields (setEntry d e))).
Proof.
  intros K C.
  destruct e; simpl in *; try (break_assign; simpl; exact C).
  rewrite assign_get by (auto using Z_eqb_true).
  destruct v as [|n|]; try discriminate; auto.
  exists (toDouble n). split; [reflexivity|].
  apply toDouble_nonneg. now apply Z.leb_le.
Qed.

Lemma setEntries_count (updates : Body) (d : Document) :
  forallb keepsCount updates = true ->
  isCount (views (fields d)) ->
  isCount (views (fields (fold_left setEntry updates d))).
Proof.
  revert d. induction updates as [|e rest IH]; intros d K C; simpl in *; auto.
  apply andb_prop in K. destruct K as [Ke Kr].
  apply IH; auto. now apply setEntry_count.
Qed.

Lemma saved_views (now : Z) (d : Document) :
  views (preSave now (timestamps now d)) = views (fields d).
Proof.
  destruct (preSave_fields now (timestamps now d)) as (_ & _ & -> & _).
  now destruct (timestamps_fields now d)
    as (_ & _ & _ & _ & _ & _ & _ & _ & _ & -> & _).
Qed.

(** C9 (amended): in every state that create, read, delete and those
    updates produce whose payload writes neither a negative number nor
    [null] to [views], the [views] of every stored broadcast is a
    non-negative integer. *)
Theorem C9_views_stay_counts (history : list Request) :
  forallb countKeeping history = true ->
  forall b, In b (run history) -> isCount (views b).
Proof.
  induction history as [|r history IH] using rev_ind; intros K b.
  - intros [].
  - rewrite forallb_app in K. apply andb_prop in K. destruct K as [Kh Kr].
    simpl in Kr. rewrite andb_true_r in Kr.
    rewrite run_snoc. intros H. apply step_docs in H.
    destruct H as [H|(now & d & -> & _ & _ & O)]; [now apply IH|].
    rewrite saved_views.
    destruct r as [t oid user body|t id_|t id_ user updates|id_ user].
    + subst d. rewrite newBroadcast_views. exists 0. split; [reflexivity|lia].
    + destruct O as (b0 & Hin & ->).
      rewrite <- saved_views with (now := t). fold (afterRead t b0).
      destruct (afterRead_fields t b0)
        as (_ & _ & _ & _ & _ & _ & _ & _ & _ & _ & _ & -> & _).
      destruct (IH Kh b0 Hin) as (n & E & Hn). rewrite E. cbn.
      exists (toDouble (n + 1)). split; [reflexivity|].
      apply toDouble_nonneg. lia.
    + destruct O as (b0 & Hin & ->).
      apply setEntries_count; [exact Kr|]. simpl. now apply IH.
    + destruct O.
Qed.

(** ** Login *)

(** C3: a login with an email that no user has and a login with a stored
    email and a password that does not match are answered by the same
    response, status 400 with the message [Invalid credentials], and leave
    the users as they were. *)
Theorem C3_login_failures_alike (comparePassword : User -> string -> bool)
  (now now' : Z) (users : Users) (email1 password1 email2 password2 : string)
  (user : User) :
  findOne users email1 = None ->
  findOne users email2 = Some user ->
  comparePassword user password2 = false ->
  POST_login comparePassword now email1 password1 users =
    (invalidCredentials, users) /\
  POST_login comparePassword now' email2 password2 users =
    (invalidCredentials, users) /\
  res_status invalidCredentials = 400 /\
  res_message invalidCredentials = Some "Invalid credentials".
Proof.
  intros A P M. unfold POST_login. rewrite A, P, M. simpl. auto.
Qed.

(** C4: on an account with [isActive = false], a login with the matching
    password is answered 403 [Account is deactivated], and a login with a
    password that does not match is answered by the generic 400 [Invalid
    credentials]: the account is looked at only once the password has been
    verified. *)
Theorem C4_login_inactive (comparePassword : User -> string -> bool)
  (now : Z) (users : Users) (email_ password_ : string) (user : User) :
  findOne users email_ = Some user ->
  isActive user = false ->
  POST_login comparePassword now email_ password_ users =
    (if comparePassword user password_ then accountDeactivated
     else invalidCredentials, users) /\
  res_status accountDeactivated = 403 /\
  res_message accountDeactivated = Some "Account is deactivated" /\
  res_status invalidCredentials = 400 /\
  res_message invalidCredentials = Some "Invalid credentials".
Proof.
  intros P A. unfold POST_login. rewrite P, A.
  destruct (comparePassword user password_); simpl; auto.
Qed.

(** ** Sorting *)

Lemma compareKey_antisym (a b : SortKey) :
  compareKey b a = CompOpp (compareKey a b).
Proof.
  destruct a, b; simpl; try reflexivity;
    first [apply Z.compare_antisym | apply String.compare_antisym].
Qed.

Lemma compareDocs_antisym (spec : SortSpec) (a b : Broadcast) :
  compareDocs spec b a = CompOpp (compareDocs spec a b).
Proof.
  induction spec as [|[p descending] rest IH]; simpl; [reflexivity|].
  rewrite (compareKey_antisym (sortKey p descending a) (sortKey p descending b)).
  destruct (compareKey (sortKey p descending a) (sortKey p descending b));
    destruct descending; simpl; auto.
Qed.

Lemma insertSorted_perm (spec : SortSpec) (x : Broadcast)
  (l : list Broadcast) :
  Permutation (insertSorted spec x l) (x :: l).
Proof.
  induction l as [|y rest IH]; simpl; [reflexivity|].
  destruct (compareDocs spec x y); try reflexivity.
  rewrite IH. apply perm_swap.
Qed.

Lemma sortDocs_perm (spec : SortSpec) (l : list Broadcast) :
  Permutation (sortDocs spec l) l.
Proof.
  induction l as [|x rest IH]; simpl; [reflexivity|].
  rewrite insertSorted_perm. now apply perm_skip.
Qed.

Lemma insertSorted_hd (spec : SortSpec) (x y : Broadcast)
  (l : list Broadcast) :
  inOrder spec y x -> HdRel (inOrder spec) y l ->
  HdRel (inOrder spec) y (insertSorted spec x l).
Proof.
  intros Hyx Hl. destruct l as [|z rest]; simpl.
  - now constructor.
  - inversion Hl; subst. destruct (compareDocs spec x z); now constructor.
Qed.

Lemma insertSorted_sorted (spec : SortSpec) (x : Broadcast)
  (l : list Broadcast) :
  Sorted (inOrder spec) l -> Sorted (inOrder spec) (insertSorted spec x l).
Proof.
  induction l as [|y rest IH]; intros S; simpl.
  - repeat constructor.
  - inversion S as [|? ? Srest Hd]; subst.
    destruct (compareDocs spec x y) eqn:C.
    + constructor; [exact S|]. constructor. unfold inOrder. now rewrite C.
    + constructor; [exact S|]. constructor. unfold inOrder. now rewrite C.
    + constructor; [now apply IH|].
      apply insertSorted_hd; [|exact Hd].
      unfold inOrder. rewrite compareDocs_antisym, C. discriminate.
Qed.

(** The sort orders its argument and keeps its elements. *)
Lemma sortDocs_sorted (spec : SortSpec) (l : list Broadcast) :
  Sorted (inOrder spec) (sortDocs spec l).
Proof.
  induction l as [|x rest IH]; simpl; [constructor|].
  now apply insertSorted_sorted.
Qed.

(** ** Listing *)

Lemma In_firstn {A : Type} (n : nat) (l : list A) (x : A) :
  In x (firstn n l) -> In x l.
Proof.
  intros H. rewrite <- (firstn_skipn n l). apply in_or_app. now left.
Qed.

Lemma In_skipn {A : Type} (n : nat) (l : list A) (x : A) :
  In x (skipn n l) -> In x l.
Proof.
  intros H. rewrite <- (firstn_skipn n l). apply in_or_app. now right.
Qed.

Lemma In_limitTo (n : Z) (l : list Broadcast) (x : Broadcast) :
  In x (limitTo n l) -> In x l.
Proof.
  unfold limitTo. destruct (n =? 0); [auto|apply In_firstn].
Qed.

Lemma limitTo_positive (n : Z) (l : list Broadcast) :
  0 < n -> limitTo n l = firstn (Z.to_nat n) l.
Proof.
  intros H. unfold limitTo.
  replace (n =? 0) with false by (symmetry; apply Z.eqb_neq; lia).
  now rewrite Z.abs_eq by lia.
Qed.

(** [ceilDiv a b] is the least number of blocks of [b] that hold [a]. *)
Lemma ceilDiv_bounds (a b : Z) :
  0 < b -> (ceilDiv a b - 1) * b < a <= ceilDiv a b * b.
Proof.
  intros H. unfold ceilDiv.
  pose proof (Z.div_mod (- a) b ltac:(lia)) as E.
  pose proof (Z.mod_pos_bound (- a) b H) as B.
  nia.
Qed.

Lemma window_nth {A : Type} (n k i : nat) (l : list A) :
  (i < n)%nat -> nth_error (firstn n (skipn k l)) i = nth_error l (k + i).
Proof.
  intros H. rewrite nth_error_firstn.
  replace (i <? n)%nat with true by (symmetry; now apply Nat.ltb_lt).
  apply nth_error_skipn.
Qed.

(** The listing for a positive page and limit whose product is at most
    [2 ^ 53], so that no number of the handler is rounded, and a search
    that the database accepts. *)
Lemma GET_list_exact (regex : string -> option (string -> bool))
  (q : ListQuery) (s : Store) (search : option (string -> bool)) :
  let page_ := orDefault 1 (q_page q) in
  let limit_ := orDefault 20 (q_limit q) in
  let query :=
    mkQuery (truthy (q_type q)) (truthy (q_urgency q))
      (truthy (Some (orDefault "active" (q_status q)))) search in
  let ordered :=
    sortDocs (orDefault newestFirst (q_sort q)) (filter (matches query) s) in
  0 < page_ -> 0 < limit_ -> page_ * limit_ <= 2 ^ 53 ->
  searchFilter regex (q_search q) = Returned search ->
  GET_list regex q s =
    (json 200 true None
       (Items
          (firstn (Z.to_nat limit_)
             (skipn (Z.to_nat ((page_ - 1) * limit_)) ordered))
          (mkPagination page_ limit_ (countDocuments query s)
             (Some (ceilDiv (countDocuments query s) limit_)))), s).
Proof.
  intros page_ limit_ query ordered Hp Hl Hb Hs.
  unfold GET_list. rewrite Hs. cbn [bind].
  fold page_ limit_ query. unfold jsTimes, jsMinus.
  rewrite (toDouble_exact page_) by (pow53; nia).
  rewrite (toDouble_exact limit_) by (pow53; nia).
  rewrite (toDouble_exact (page_ - 1)) by (pow53; nia).
  rewrite (toDouble_exact ((page_ - 1) * limit_)) by (pow53; nia).
  unfold find.
  replace ((page_ - 1) * limit_ <? 0) with false
    by (symmetry; apply Z.ltb_ge; nia).
  cbn [bind tryCatch]. rewrite limitTo_positive by exact Hl.
  unfold pageCount.
  replace (limit_ =? 0) with false by (symmetry; apply Z.eqb_neq; lia).
  reflexivity.
Qed.

(** C6 (amended): with positive [page] and [limit] whose product is at
    most [2 ^ 53], so that the handler reads and multiplies them exactly,
    a search term that the database accepts as a regular expression when
    one is given, and [N] broadcasts that match the filters, the listing
    returns the [page]-th window of at most [limit] items of the matching
    broadcasts in sort order (items [(page-1)*limit] to [page*limit-1]),
    reports [total = N] whatever the page, and reports
    [pages = ceil(N / limit)]; with [N = 45] and [limit = 20], page 1 has
    20 items, [pages] is 3 and page 3 has 5 items. *)
Theorem C6_pagination (regex : string -> option (string -> bool))
  (q : ListQuery) (s : Store) (search : option (string -> bool)) :
  let page_ := orDefault 1 (q_page q) in
  let limit_ := orDefault 20 (q_limit q) in
  let sort := orDefault newestFirst (q_sort q) in
  let query :=
    mkQuery (truthy (q_type q)) (truthy (q_urgency q))
      (truthy (Some (orDefault "active" (q_status q)))) search in
  let matching := filter (matches query) s in
  let N := Z.of_nat (List.length matching) in
  0 < page_ ->
  0 < limit_ ->
  page_ * limit_ <= 2 ^ 53 ->
  searchFilter regex (q_search q) = Returned search ->
  exists ordered l pages_,
    GET_list regex q s =
      (json 200 true None
         (Items l (mkPagination page_ limit_ N (Some pages_))), s) /\
    Permutation ordered matching /\
    Sorted (inOrder sort) ordered /\
    (forall i, 0 <= i < limit_ ->
       nth_error l (Z.to_nat i) =
       nth_error ordered (Z.to_nat ((page_ - 1) * limit_ + i))) /\
    Z.of_nat (List.length l) =
      Z.min limit_ (Z.max 0 (N - (page_ - 1) * limit_)) /\
    (pages_ - 1) * limit_ < N <= pages_ * limit_ /\
    (N = 45 -> limit_ = 20 ->
     pages_ = 3 /\
     (page_ = 1 -> List.length l = 20%nat) /\
     (page_ = 3 -> List.length l = 5%nat)).
Proof.
  intros page_ limit_ sort query matching N Hp Hl Hb Hs.
  set (ordered := sortDocs sort matching).
  set (skip_ := (page_ - 1) * limit_).
  assert (Hk : 0 <= skip_) by (unfold skip_; nia).
  set (l := firstn (Z.to_nat limit_) (skipn (Z.to_nat skip_) ordered)).
  assert (Hlen : Z.of_nat (List.length l) = Z.min limit_ (Z.max 0 (N - skip_))).
  { unfold l. rewrite length_firstn, length_skipn.
    unfold ordered. rewrite (Permutation_length (sortDocs_perm sort matching)).
    fold N. unfold N. lia. }
  pose proof (ceilDiv_bounds N limit_ Hl) as Hc.
  exists ordered, l, (ceilDiv N limit_).
  split; [exact (GET_list_exact regex q s search Hp Hl Hb Hs)|].
  split; [apply sortDocs_perm|].
  split; [apply sortDocs_sorted|]. split; [|split; [exact Hlen|]].
  - intros i Hi. unfold l. rewrite window_nth by lia.
    f_equal. lia.
  - split; [exact Hc|]. intros EN El.
    unfold skip_ in Hlen. rewrite EN, El in Hlen.
    split; [now rewrite EN, El|].
    split; intros Ep; rewrite Ep in Hlen; lia.
Qed.

(** *** Searching *)

Lemma prefix_ci_spec (p s : string) :
  prefix_ci p s = true <->
  exists v, toLowerCase s = String.append (toLowerCase p) v.
Proof.
  revert s. induction p as [|a p IH]; intros s; simpl.
  - split; [intros _; now exists (toLowerCase s)|reflexivity].
  - destruct s as [|b s]; simpl.
    + split; [discriminate|intros (v & E); discriminate].
    + rewrite andb_true_iff, IH. split.
      * intros (E & v & Hv). apply Ascii.eqb_eq in E.
        exists v. now rewrite E, Hv.
      * intros (v & E). inversion E as [[Ha Hs]]. split.
        -- rewrite Ha. apply Ascii.eqb_refl.
        -- now exists v.
Qed.

(** The search by scanning finds exactly the substrings. *)
Lemma includes_ci_spec (p s : string) :
  includes_ci p s = true <-> Substring_ci p s.
Proof.
  unfold Substring_ci. induction s as [|c s IH].
  - simpl. rewrite orb_false_r, prefix_ci_spec. split.
    + intros (v & E). now exists EmptyString, v.
    + intros (u & v & E). destruct u; [now exists v|discriminate].
  - change (includes_ci p (String c s))
      with (prefix_ci p (String c s) || includes_ci p s).
    rewrite orb_true_iff, IH, prefix_ci_spec. split.
    + intros [(v & E)|(u & v & E)].
      * now exists EmptyString, v.
      * exists (String (toLower c) u), v. simpl. now rewrite E.
    + intros (u & v & E). destruct u as [|x u].
      * left. now exists v.
      * right. simpl in E. inversion E. now exists u, v.
Qed.

Lemma test_occurs (term : string) (re : string -> bool) (b : Broadcast) :
  (forall x, re x = includes_ci term x) ->
  test re (title b) || test re (message b) || testAny re (tags b) = true ->
  occursIn term b.
Proof.
  intros R H. unfold occursIn.
  apply orb_prop in H. destruct H as [H|H]; [apply orb_prop in H; destruct H as [H|H]|].
  - left. destruct (title b) as [t|]; [|discriminate]. exists t.
    split; [reflexivity|]. apply includes_ci_spec. now rewrite <- R.
  - right. left. destruct (message b) as [m|]; [|discriminate]. exists m.
    split; [reflexivity|]. apply includes_ci_spec. now rewrite <- R.
  - right. right. destruct (tags b) as [l|]; [|discriminate]. simpl in H.
    apply existsb_exists in H. destruct H as (tag & Hin & Ht).
    exists l, tag. repeat split; auto.
    apply includes_ci_spec. now rewrite <- R.
Qed.

Lemma equals_some (w : string) (have : option string) :
  equals (Some w) have = true -> have = Some w.
Proof.
  simpl. destruct have as [h|]; [|discriminate].
  intros E. apply String.eqb_eq in E. now subst.
Qed.

Lemma truthy_some (v : option string) (x : string) :
  v = Some x -> x <> "" -> truthy v = Some x.
Proof.
  intros -> N. simpl. apply String.eqb_neq in N. now rewrite N.
Qed.

(** What a listing that succeeded returned. *)
Lemma GET_list_ok (regex : string -> option (string -> bool))
  (q : ListQuery) (s : Store) (l : list Broadcast) (p : Pagination) :
  fst (GET_list regex q s) = json 200 true None (Items l p) ->
  exists search,
    searchFilter regex (q_search q) = Returned search /\
    forall b, In b l ->
      matches
        (mkQuery (truthy (q_type q)) (truthy (q_urgency q))
           (truthy (Some (orDefault "active" (q_status q)))) search) b = true.
Proof.
  unfold GET_list.
  destruct (searchFilter regex (q_search q)) as [search|e];
    cbn [bind tryCatch fst]; [|discriminate].
  unfold find.
  destruct (jsTimes (jsMinus (toDouble (orDefault 1 (q_page q))) 1)
              (toDouble (orDefault 20 (q_limit q))) <? 0);
    cbn [bind tryCatch fst]; [discriminate|].
  intros H. inversion H as [[Hl Hp]]. clear H Hp.
  exists search. split; [reflexivity|]. intros b Hin.
  apply In_limitTo, In_skipn in Hin.
  apply (Permutation_in _ (sortDocs_perm _ _)) in Hin.
  now apply filter_In in Hin.
Qed.

(** C5 (amended): every item of a listing has status [active] when the
    caller gives no status, and has exactly the given status when that is
    a non-empty string; it has exactly the given type and urgency when
    these are non-empty; and when a non-empty search term is given, the
    term, read as a case-insensitive regular expression, matches the
    title, the message or some tag of the item, all of these holding
    together.  Whenever the expression of the term matches as the
    case-insensitive substring search does, the term occurs in the title,
    the message or a tag. *)
Theorem C5_list_filters (regex : string -> option (string -> bool))
  (q : ListQuery) (s : Store) (l : list Broadcast) (p : Pagination)
  (b : Broadcast) :
  fst (GET_list regex q s) = json 200 true None (Items l p) ->
  In b l ->
  (q_status q = None -> status b = Some "active") /\
  (forall st, q_status q = Some st -> st <> "" -> status b = Some st) /\
  (forall ty, q_type q = Some ty -> ty <> "" -> type b = Some ty) /\
  (forall u, q_urgency q = Some u -> u <> "" -> urgency b = Some u) /\
  (forall term, q_search q = Some term -> term <> "" ->
     exists re,
       regex term = Some re /\
       test re (title b) || test re (message b) || testAny re (tags b) = true /\
       ((forall x, re x = includes_ci term x) -> occursIn term b)).
Proof.
  intros H Hin. apply GET_list_ok in H. destruct H as (search & Hs & M).
  specialize (M b Hin). unfold matches in M. cbn [query_type query_urgency
    query_status query_or] in M.
  apply andb_prop in M. destruct M as [M Mor].
  apply andb_prop in M. destruct M as [M Mst].
  apply andb_prop in M. destruct M as [Mty Mu].
  repeat split.
  - intros E. rewrite E in Mst. now apply equals_some in Mst.
  - intros st E N. rewrite E in Mst. cbn [orDefault] in Mst.
    rewrite (truthy_some _ st eq_refl N) in Mst. now apply equals_some.
  - intros ty E N. rewrite (truthy_some _ ty E N) in Mty.
    now apply equals_some.
  - intros u E N. rewrite (truthy_some _ u E N) in Mu. now apply equals_some.
  - intros term E N. unfold searchFilter in Hs.
    rewrite (truthy_some _ term E N) in Hs.
    destruct (regex term) as [re|]; [|discriminate].
    inversion Hs; subst search. exists re. repeat split; auto.
    intros R. now apply test_occurs with (re := re).
Qed.

(** On a pattern without special characters the matcher at hand is the
    case-insensitive substring search. *)
Lemma dotRegex_plain (pattern : string) :
  plain pattern = true ->
  exists re, dotRegex pattern = Some re /\
             forall x, re x = includes_ci pattern x.
Proof.
  intros P.
  assert (A : exists l, atoms pattern = Some l /\
                        forall x, matchesAt l x = prefix_ci pattern x).
  { induction pattern as [|c rest IH].
    - exists []. split; [reflexivity|]. now intros [|? ?].
    - unfold plain in P. simpl in P. apply andb_prop in P.
      destruct P as [Pc Pr]. destruct (IH Pr) as (l & E & M).
      assert (D : Ascii.eqb c "." = false).
      { destruct (Ascii.eqb c ".") eqn:D; [|reflexivity].
        apply Ascii.eqb_eq in D. subst c. discriminate. }
      apply negb_true_iff in Pc.
      exists (Literal c :: l). split.
      + simpl. now rewrite E, D, Pc.
      + intros [|y x]; simpl; [reflexivity|]. now rewrite M. }
  destruct A as (l & E & M). unfold dotRegex. rewrite E. simpl.
  exists (searchAtoms l). split; [reflexivity|].
  induction x as [|y x IH]; simpl.
  - now rewrite M.
  - now rewrite M, IH.
Qed.

(** * The handlers at work *)

Ltac run_it := vm_compute; first [reflexivity | discriminate | tauto].

(** An update by the owner at time 200, after the notice expired, that
    asks for the status [active]. *)
Lemma C1_witness :
  exists b b',
    findById board noticeId = Returned (Some b) /\
    lookup
      (snd (PUT_id 200 noticeId alice [Key_status (Value "active")] board))
      (_id b) = Some b' /\
    res_data
      (fst (PUT_id 200 noticeId alice [Key_status (Value "active")] board))
    = Item b' /\
    expiryDate b' =
      expiryDate
        (fields
           (fold_left setEntry [Key_status (Value "active")] (loaded b))) /\
    (forall t, expiryDate b' = Some t -> t < 200 ->
               status b' = Some "expired").
Proof.
  apply (C1_update_forces_expired 200 noticeId alice
           [Key_status (Value "active")] board
           (fst (PUT_id 200 noticeId alice [Key_status (Value "active")] board))
           (snd (PUT_id 200 noticeId alice [Key_status (Value "active")] board)));
    run_it.
Defined.

(** [bob] may neither update nor delete the notice of [alice]. *)
Lemma C2_witness :
  PUT_id 120 noticeId bob [Key_title (Value "Mine")] board =
    (notAuthorized, board) /\
  DELETE_id noticeId bob board = (notAuthorized, board) /\
  res_status notAuthorized = 403.
Proof.
  apply (C2_non_owner_refused 120 noticeId bob [Key_title (Value "Mine")]
           board posted "aaaaaaaaaaaaaaaaaaaaaaaa");
    run_it.
Defined.

(** An unknown email and a wrong password of [dave]. *)
Lemma C3_witness :
  POST_login plainPassword 5 "erin@example.org" "hunter2" members =
    (invalidCredentials, members) /\
  POST_login plainPassword 6 "dave@example.org" "hunter3" members =
    (invalidCredentials, members) /\
  res_status invalidCredentials = 400 /\
  res_message invalidCredentials = Some "Invalid credentials".
Proof.
  apply (C3_login_failures_alike plainPassword 5 6 members
           "erin@example.org" "hunter2" "dave@example.org" "hunter3" dave);
    run_it.
Defined.

(** [carol] is deactivated: her own password is answered 403. *)
Lemma C4_witness :
  POST_login plainPassword 5 "carol@example.org" "s3cret" members =
    (if plainPassword carol "s3cret" then accountDeactivated
     else invalidCredentials, members) /\
  res_status accountDeactivated = 403 /\
  res_message accountDeactivated = Some "Account is deactivated" /\
  res_status invalidCredentials = 400 /\
  res_message invalidCredentials = Some "Invalid credentials".
Proof.
  apply (C4_login_inactive plainPassword 5 members "carol@example.org"
           "s3cret" carol); run_it.
Defined.

(** A search for [maint] finds the notice by its tag [Maintenance]. *)
Lemma C5_witness :
  (q_status (searchFor "maint") = None -> status posted = Some "active") /\
  (forall st, q_status (searchFor "maint") = Some st -> st <> "" ->
              status posted = Some st) /\
  (forall ty, q_type (searchFor "maint") = Some ty -> ty <> "" ->
              type posted = Some ty) /\
  (forall u, q_urgency (searchFor "maint") = Some u -> u <> "" ->
             urgency posted = Some u) /\
  (forall term, q_search (searchFor "maint") = Some term -> term <> "" ->
     exists re,
       dotRegex term = Some re /\
       test re (title posted) || test re (message posted) ||
         testAny re (tags posted) = true /\
       ((forall x, re x = includes_ci term x) -> occursIn term posted)).
Proof.
  apply (C5_list_filters dotRegex (searchFor "maint") board
           (itemsOf (fst (GET_list dotRegex (searchFor "maint") board)))
           (paginationOf (fst (GET_list dotRegex (searchFor "maint") board)))
           posted).
  - vm_compute. reflexivity.
  - vm_compute. left. reflexivity.
Defined.

(** Forty-five memos in pages of twenty: page 1 has 20 items, page 3 has
    5, and there are 3 pages. *)
Lemma C6_witness :
  List.length (itemsOf (fst (GET_list dotRegex (pageOf 1) fortyFive)))
    = 20%nat /\
  List.length (itemsOf (fst (GET_list dotRegex (pageOf 3) fortyFive)))
    = 5%nat /\
  pages (paginationOf (fst (GET_list dotRegex (pageOf 1) fortyFive)))
    = Some 3 /\
  total (paginationOf (fst (GET_list dotRegex (pageOf 3) fortyFive))) = 45.
Proof.
  assert (N : Z.of_nat
                (List.length
                   (filter
                      (matches (mkQuery None None (Some "active") None))
                      fortyFive)) = 45) by (vm_compute; reflexivity).
  destruct (C6_pagination dotRegex (pageOf 1) fortyFive None)
    as (o1 & l1 & p1 & E1 & _ & _ & _ & _ & _ & H1);
    [reflexivity|reflexivity|discriminate|reflexivity|].
  destruct (C6_pagination dotRegex (pageOf 3) fortyFive None)
    as (o3 & l3 & p3 & E3 & _ & _ & _ & _ & _ & H3);
    [reflexivity|reflexivity|discriminate|reflexivity|].
  destruct (H1 N eq_refl) as (P1 & L1 & _).
  destruct (H3 N eq_refl) as (_ & _ & L3).
  rewrite E1, E3. cbn [fst itemsOf paginationOf res_data json pages total].
  rewrite P1. repeat split; auto.
Defined.


(** A create without any field. *)
Lemma C8_witness :
  save 100
    (newBroadcast noticeId (property pick_title [])
       (property pick_message []) (property pick_urgency [])
       (property pick_type []) (property pick_tags [])
       (property pick_expiryDate []) (castId (id alice))) board
  = Threw ValidationError /\
  POST_create 100 noticeId alice [] board = (serverError, board) /\
  res_status serverError = 500.
Proof.
  apply (C8_create_rejected 100 noticeId alice [] board).
  left. left. reflexivity.
Defined.

(** After two reads and an update that sets [views] to 7. *)
Lemma C9_witness : isCount (views (hd (defaults "") (run counted))).
Proof.
  apply (C9_views_stay_counts counted).
  - vm_compute. reflexivity.
  - vm_compute. left. reflexivity.
Defined.


(** * Where the code departs from the specification *)

Lemma not_occurs (term : string) (b : Broadcast) :
  test (includes_ci term) (title b) = false ->
  test (includes_ci term) (message b) = false ->
  testAny (includes_ci term) (tags b) = false ->
  ~ occursIn term b.
Proof.
  intros T M G [(t & E & S)|[(m & E & S)|(l & tag & E & Hin & S)]];
    apply includes_ci_spec in S.
  - rewrite E in T. simpl in T. congruence.
  - rewrite E in M. simpl in M. congruence.
  - rewrite E in G. simpl in G.
    assert (X : existsb (includes_ci term) l = true)
      by (apply existsb_exists; now exists tag).
    congruence.
Qed.

(** The listing with [?status=] returns the archived notice, whose status
    is neither the empty string nor [active]; the listing with [?search=.]
    returns the notice, in which no full stop occurs. *)
Lemma C5_counterexample :
  ~ listing_as_specified dotRegex anyStatus archive /\
  map status (itemsOf (fst (GET_list dotRegex anyStatus archive)))
    = [Some "archived"] /\
  ~ listing_as_specified dotRegex (searchFor ".") board /\
  map title (itemsOf (fst (GET_list dotRegex (searchFor ".") board)))
    = [Some "Lift out of order"].
Proof.
  split; [|split; [|split]]; try (vm_compute; reflexivity); intros H.
  - destruct (H (itemsOf (fst (GET_list dotRegex anyStatus archive)))
                (paginationOf (fst (GET_list dotRegex anyStatus archive)))
                (hd (defaults "") archive))
      as (_ & S & _); [run_it|run_it|].
    specialize (S "" eq_refl). vm_compute in S. discriminate.
  - destruct (H (itemsOf (fst (GET_list dotRegex (searchFor ".") board)))
                (paginationOf (fst (GET_list dotRegex (searchFor ".") board)))
                posted)
      as (_ & _ & _ & _ & S); [run_it|run_it|].
    specialize (S "." eq_refl). revert S.
    apply not_occurs; vm_compute; reflexivity.
Qed.

(** Beyond [2 ^ 53] the listing answers with the page as [parseInt] reads
    it. *)
Example listing_rounds_page :
  page (paginationOf (fst (GET_list dotRegex (pageOf (2 ^ 53 + 1)) board)))
  = 2 ^ 53.
Proof. lazy. reflexivity. Qed.

(** The listing with [?search=(], a term that is no regular expression,
    is answered 500, without items or pagination. *)
Lemma C6_counterexample :
  ~ pagination_as_specified dotRegex (searchFor "(") fortyFive /\
  fst (GET_list dotRegex (searchFor "(") fortyFive) = serverError.
Proof.
  split; [|vm_compute; reflexivity].
  intros H. destruct H as (l & p & pages_ & E & _); try reflexivity.
  vm_compute in E. discriminate E.
Qed.


(** A create without title and message is answered 500. *)
Lemma C8_counterexample : ~ create_as_specified 100 noticeId alice [] board.
Proof.
  intros H. destruct H as ((_ & L) & _).
  - left. left. reflexivity.
  - vm_compute in L. discriminate L.
Qed.

(** The owner sets [views] to -5, or to [null]. *)
Lemma C9_counterexample :
  ~ views_as_specified spoiled /\ ~ views_as_specified voided.
Proof.
  split; intros H.
  - destruct (H (hd (defaults "") (run spoiled))) as (n & E & P).
    + vm_compute. left. reflexivity.
    + vm_compute in E. inversion E. subst n. lia.
  - destruct (H (hd (defaults "") (run voided))) as (n & E & P).
    + vm_compute. left. reflexivity.
    + vm_compute in E. discriminate E.
Qed.


(** * Further properties of the router *)

(** ** Create *)

Lemma newBroadcast_id (oid : ObjectId)
  (t m u ty : option (Supplied string)) (tg : option (Supplied (list string)))
  (e : option (Supplied Z)) (c : Supplied ObjectId) :
  _id (fields (newBroadcast oid t m u ty tg e c)) = oid.
Proof. unfold newBroadcast. frame _id. reflexivity. Qed.

Lemma newBroadcast_status (oid : ObjectId)
  (t m u ty : option (Supplied string)) (tg : option (Supplied (list string)))
  (e : option (Supplied Z)) (c : Supplied ObjectId) :
  status (fields (newBroadcast oid t m u ty tg e c)) = Some "active".
Proof. unfold newBroadcast. frame status. reflexivity. Qed.

Lemma newBroadcast_priority (oid : ObjectId)
  (t m u ty : option (Supplied string)) (tg : option (Supplied (list string)))
  (e : option (Supplied Z)) (c : Supplied ObjectId) :
  priority (fields (newBroadcast oid t m u ty tg e c)) = Some 0.
Proof. unfold newBroadcast. frame priority. reflexivity. Qed.

Lemma newBroadcast_owner (oid : ObjectId)
  (t m u ty : option (Supplied string)) (tg : option (Supplied (list string)))
  (e : option (Supplied Z)) (x : string) :
  invalidated (newBroadcast oid t m u ty tg e (castId x)) = false ->
  exists o, castObjectId x = Some o /\
            createdBy (fields (newBroadcast oid t m u ty tg e (castId x)))
            = Some o.
Proof.
  unfold newBroadcast, castId. destruct (castObjectId x) as [o|].
  - intros _. exists o. split; [reflexivity|]. cbn [setEntry].
    now rewrite assign_get by (auto using string_eqb_true).
  - cbn. discriminate.
Qed.

Lemma lookup_fresh (s : Store) (oid : ObjectId) :
  existsb (hasId oid) s = false -> lookup s oid = None.
Proof.
  intros E. unfold lookup.
  destruct (List.find (hasId oid) s) as [b|] eqn:F; [|reflexivity].
  apply find_some in F. destruct F as [Hin Hid].
  assert (X : existsb (hasId oid) s = true)
    by (apply existsb_exists; now exists b).
  congruence.
Qed.

Lemma preSave_status (now : Z) (b : Broadcast) :
  status (preSave now b) =
  if isExpired now b then Some "expired" else status b.
Proof.
  unfold preSave, isExpired. destruct (expiryDate b) as [t|]; [|reflexivity].
  destruct (t <? now); reflexivity.
Qed.

Lemma preSave_isExpired (now : Z) (b : Broadcast) :
  isExpired now (preSave now b) = isExpired now b.
Proof.
  unfold isExpired. now destruct (preSave_fields now b) as (_ & -> & _).
Qed.

(** X1: a create that is answered 201 appends exactly one document to the
    collection, under the generated id, which no stored document had; the
    document belongs to the caller, starts with no views and priority 0, is
    stamped with the time of the request, passes the validators, and is
    stored [expired] when its expiry date already lies in the past and
    [active] otherwise. *)
Theorem create_appends_one (now : Z) (oid : ObjectId) (user : Identity)
  (body : Body) (s : Store) (res : Response) (s' : Store) :
  POST_create now oid user body s = (res, s') ->
  res_status res = 201 ->
  exists b,
    s' = s ++ [b] /\ res_data res = Item b /\
    _id b = oid /\ lookup s oid = None /\
    castObjectId (id user) = createdBy b /\ createdBy b <> None /\
    views b = Some 0 /\ priority b = Some 0 /\
    createdAt b = now /\ updatedAt b = now /\
    validate b = true /\
    status b = Some (if isExpired now b then "expired" else "active").
Proof.
  unfold POST_create. set (d := newBroadcast _ _ _ _ _ _ _ _).
  unfold save.
  destruct (invalidated d) eqn:I; cbn [orb bind tryCatch];
    [intros H; inversion H; subst; discriminate|].
  destruct (validate (fields d)) eqn:V; cbn [negb bind tryCatch];
    [|intros H; inversion H; subst; discriminate].
  assert (N : isNew d = true) by apply newBroadcast_isNew.
  rewrite N.
  set (b := preSave now (timestamps now d)).
  destruct (existsb (hasId (_id b)) s) eqn:E; cbn [bind tryCatch fst snd];
    [intros H; inversion H; subst; discriminate|].
  intros H _. inversion H; subst res s'. clear H.
  assert (T : timestamps now d = set_updatedAt now (set_createdAt now (fields d)))
    by (unfold timestamps; now rewrite N).
  assert (Hid : _id b = oid).
  { unfold b. destruct (preSave_fields now (timestamps now d)) as (-> & _).
    rewrite T. cbn. apply newBroadcast_id. }
  destruct (newBroadcast_owner _ _ _ _ _ _ _ _ I) as (o & Ho & Hc).
  fold d in Hc.
  assert (Hcb : createdBy b = Some o).
  { unfold b. destruct (preSave_fields now (timestamps now d)) as (_ & _ & _ & ->).
    rewrite T. exact Hc. }
  exists b. repeat split.
  - exact Hid.
  - apply lookup_fresh. now rewrite <- Hid.
  - now rewrite Ho, Hcb.
  - now rewrite Hcb.
  - unfold b. rewrite saved_views. apply newBroadcast_views.
  - unfold b, preSave. rewrite T.
    destruct (expiryDate _) as [t|]; [destruct (t <? now)|]; cbn;
      apply newBroadcast_priority.
  - unfold b, preSave. rewrite T.
    destruct (expiryDate _) as [t|]; [destruct (t <? now)|]; reflexivity.
  - unfold b, preSave. rewrite T.
    destruct (expiryDate _) as [t|]; [destruct (t <? now)|]; reflexivity.
  - unfold b. apply preSave_validate. now rewrite timestamps_validate.
  - unfold b. rewrite preSave_isExpired, preSave_status.
    replace (status (timestamps now d)) with (Some "active").
    + now destruct (isExpired now (timestamps now d)).
    + rewrite T. cbn. symmetry. apply newBroadcast_status.
Qed.

(** ** Failures *)

(** X2: a request that is refused writes nothing: a read or a delete that
    is not answered 200, and an update that is answered 403 or 404, leave
    the collection exactly as it was. *)
Theorem failure_leaves_store (now : Z) (id_ : string) (user : Identity)
  (body : Body) (s : Store) :
  (res_status (fst (GET_id now id_ s)) <> 200 ->
   snd (GET_id now id_ s) = s) /\
  (res_status (fst (DELETE_id id_ user s)) <> 200 ->
   snd (DELETE_id id_ user s) = s) /\
  (res_status (fst (PUT_id now id_ user body s)) = 403 \/
   res_status (fst (PUT_id now id_ user body s)) = 404 ->
   snd (PUT_id now id_ user body s) = s).
Proof.
  repeat split.
  - unfold GET_id. destruct (findById s id_) as [[b|]|e];
      cbn [bind tryCatch fst snd]; try reflexivity.
    destruct (save now _ s) as [[b' s']|e]; cbn [bind tryCatch fst snd];
      [intros H; now contradiction H|reflexivity].
  - unfold DELETE_id. destruct (findById s id_) as [[b|]|e];
      cbn [bind tryCatch fst snd]; try reflexivity.
    destruct (toString (createdBy b)) as [owner|e];
      cbn [bind tryCatch fst snd]; try reflexivity.
    destruct (refused owner user); cbn [bind tryCatch fst snd];
      try reflexivity.
    intros H. now contradiction H.
  - unfold PUT_id. destruct (findById s id_) as [[b|]|e];
      cbn [bind tryCatch fst snd]; try reflexivity.
    destruct (toString (createdBy b)) as [owner|e];
      cbn [bind tryCatch fst snd]; try reflexivity.
    destruct (refused owner user); cbn [bind tryCatch fst snd];
      try reflexivity.
    destruct (save now _ s) as [[b' s']|e]; cbn [bind tryCatch fst snd];
      [intros [H|H]; discriminate H|reflexivity].
Qed.

Lemma replaceOne_ids (b : Broadcast) (s : Store) :
  map _id (replaceOne b s) = map _id s.
Proof.
  induction s as [|x rest IH]; simpl; [reflexivity|].
  destruct (hasId (_id b) x) eqn:E; simpl.
  - apply hasId_true in E. now rewrite E.
  - now rewrite IH.
Qed.

Lemma deleteOne_ids_incl (oid : ObjectId) (s : Store) (x : ObjectId) :
  In x (map _id (deleteOne oid s)) -> In x (map _id s).
Proof.
  induction s as [|y rest IH]; simpl; [tauto|].
  destruct (hasId oid y); simpl; [tauto|]. intros [H|H]; auto.
Qed.

Lemma deleteOne_NoDup (oid : ObjectId) (s : Store) :
  NoDup (map _id s) -> NoDup (map _id (deleteOne oid s)).
Proof.
  induction s as [|y rest IH]; simpl; intros N; [constructor|].
  inversion N as [|? ? Hy Hr]; subst.
  destruct (hasId oid y); simpl; [exact Hr|].
  constructor; [|now apply IH].
  intros H. apply Hy. now apply deleteOne_ids_incl in H.
Qed.

Lemma existsb_hasId_false (oid : ObjectId) (s : Store) :
  existsb (hasId oid) s = false -> ~ In oid (map _id s).
Proof.
  intros E H. apply in_map_iff in H. destruct H as (b & Hb & Hin).
  assert (X : existsb (hasId oid) s = true).
  { apply existsb_exists. exists b. split; [exact Hin|].
    unfold hasId. rewrite Hb. apply String.eqb_refl. }
  congruence.
Qed.

(** The next state: the same, one document more under a fresh id, one
    document replaced, or one document less. *)
Lemma step_shape (s : Store) (r : Request) :
  step s r = s \/
  (exists b, step s r = s ++ [b] /\ existsb (hasId (_id b)) s = false) \/
  (exists b, step s r = replaceOne b s) \/
  (exists oid, step s r = deleteOne oid s).
Proof.
  destruct r as [now oid user body|now id_|now id_ user updates|id_ user];
    cbn [step].
  - unfold POST_create. unfold save.
    destruct (invalidated _ || negb (validate _)); cbn [bind tryCatch snd];
      auto.
    rewrite newBroadcast_isNew.
    match goal with
    | |- context [existsb (hasId (_id ?b)) s] =>
        destruct (existsb (hasId (_id b)) s) eqn:E
    end; cbn [bind tryCatch snd]; auto.
    right. left. eexists. split; [reflexivity|exact E].
  - unfold GET_id. destruct (findById s id_) as [[b|]|e];
      cbn [bind tryCatch snd]; auto.
    destruct (save now _ s) as [[b' s']|e] eqn:S; cbn [bind tryCatch snd];
      auto.
    apply save_existing in S; [|now rewrite setEntry_isNew].
    destruct S as (_ & _ & _ & ->). right. right. left. now exists b'.
  - unfold PUT_id. destruct (findById s id_) as [[b|]|e];
      cbn [bind tryCatch snd]; auto.
    destruct (toString (createdBy b)) as [owner|e];
      cbn [bind tryCatch snd]; auto.
    destruct (refused owner user); cbn [bind tryCatch snd]; auto.
    destruct (save now _ s) as [[b' s']|e] eqn:S; cbn [bind tryCatch snd];
      auto.
    apply save_existing in S; [|now rewrite setEntries_isNew].
    destruct S as (_ & _ & _ & ->). right. right. left. now exists b'.
  - unfold DELETE_id. destruct (findById s id_) as [[b|]|e];
      cbn [bind tryCatch snd]; auto.
    destruct (toString (createdBy b)) as [owner|e];
      cbn [bind tryCatch snd]; auto.
    destruct (refused owner user); cbn [bind tryCatch snd]; auto.
    right. right. right. now exists (_id b).
Qed.

Lemma run_NoDup (history : list Request) : NoDup (map _id (run history)).
Proof.
  induction history as [|r history IH] using rev_ind; [constructor|].
  rewrite run_snoc.
  destruct (step_shape (run history) r)
    as [E|[(b & E & F)|[(b & E)|(oid & E)]]]; rewrite E.
  - exact IH.
  - rewrite map_app. simpl. apply NoDup_app_remove_l with (l := []).
    simpl. apply Permutation_NoDup with (l := _id b :: map _id (run history)).
    + apply Permutation_cons_append.
    + constructor; [now apply existsb_hasId_false|exact IH].
  - now rewrite replaceOne_ids.
  - now apply deleteOne_NoDup.
Qed.

Lemma lookup_own (s : Store) (b : Broadcast) :
  NoDup (map _id s) -> In b s -> lookup s (_id b) = Some b.
Proof.
  unfold lookup. induction s as [|x rest IH]; simpl; intros N H; [tauto|].
  destruct H as [H|H].
  - subst x. now rewrite hasId_refl.
  - inversion N as [|? ? Hx Hr]; subst.
    destruct (hasId (_id b) x) eqn:E.
    + apply hasId_true in E. exfalso. apply Hx. rewrite E.
      now apply in_map.
    + now apply IH.
Qed.

(** X3: in every state the router can produce, no two stored broadcasts
    share an id, and looking a stored broadcast up by its id returns that
    very broadcast. *)
Theorem stored_found_by_id (history : list Request) :
  NoDup (map _id (run history)) /\
  forall b, In b (run history) -> lookup (run history) (_id b) = Some b.
Proof.
  split; [apply run_NoDup|]. intros b. apply lookup_own, run_NoDup.
Qed.

(** ** Delete *)

Lemma lookup_deleteOne (s : Store) (oid : ObjectId) :
  NoDup (map _id s) -> lookup (deleteOne oid s) oid = None.
Proof.
  unfold lookup. induction s as [|x rest IH]; simpl; intros N; [reflexivity|].
  inversion N as [|? ? Hx Hr]; subst.
  destruct (hasId oid x) eqn:E; simpl.
  - apply hasId_true in E. apply lookup_none. intros b Hin Hb.
    apply Hx. rewrite E, <- Hb. now apply in_map.
  - rewrite E. now apply IH.
Qed.

Lemma lookup_deleteOne_other (s : Store) (oid oid' : ObjectId) :
  oid' <> oid -> lookup (deleteOne oid s) oid' = lookup s oid'.
Proof.
  intros D. unfold lookup. induction s as [|x rest IH]; simpl; [reflexivity|].
  destruct (hasId oid x) eqn:E; simpl.
  - apply hasId_true in E.
    replace (hasId oid' x) with false; [reflexivity|].
    symmetry. unfold hasId. apply String.eqb_neq. congruence.
  - now rewrite IH.
Qed.

Lemma deleteOne_length (s : Store) (oid : ObjectId) (b : Broadcast) :
  lookup s oid = Some b ->
  List.length s = S (List.length (deleteOne oid s)).
Proof.
  unfold lookup. induction s as [|x rest IH]; simpl; [discriminate|].
  destruct (hasId oid x); simpl; [reflexivity|].
  intros H. now rewrite (IH H).
Qed.

(** What a delete that succeeded did. *)
Lemma DELETE_id_ok (id_ : string) (user : Identity) (s : Store)
  (res : Response) (s' : Store) :
  DELETE_id id_ user s = (res, s') ->
  res_status res = 200 ->
  exists oid b,
    castObjectId id_ = Some oid /\ lookup s oid = Some b /\
    s' = deleteOne oid s.
Proof.
  unfold DELETE_id, findById.
  destruct (castObjectId id_) as [oid|]; cbn [bind tryCatch];
    [|intros H; inversion H; subst; discriminate].
  destruct (lookup s oid) as [b|] eqn:L; cbn [bind tryCatch];
    [|intros H; inversion H; subst; discriminate].
  destruct (toString (createdBy b)) as [owner|e]; cbn [bind tryCatch];
    [|intros H; inversion H; subst; discriminate].
  destruct (refused owner user); cbn [bind tryCatch];
    intros H; inversion H; subst; [discriminate|].
  intros _. exists oid, b. repeat split; auto.
  unfold remove. now rewrite (lookup_id _ _ _ L).
Qed.

(** X4: after a delete that succeeded, the broadcast is gone for good: the
    collection holds one document less, a read and an update of the same
    id are answered 404 whoever asks, and every other broadcast is found
    as before. *)
Theorem delete_then_gone (history : list Request) (id_ : string)
  (user : Identity) (res : Response) (s' : Store) :
  DELETE_id id_ user (run history) = (res, s') ->
  res_status res = 200 ->
  List.length (run history) = S (List.length s') /\
  (forall now, GET_id now id_ s' = (notFound, s')) /\
  (forall now other updates,
     PUT_id now id_ other updates s' = (notFound, s')) /\
  (forall other, DELETE_id id_ other s' = (notFound, s')) /\
  (forall oid', castObjectId id_ <> Some oid' ->
     lookup s' oid' = lookup (run history) oid').
Proof.
  intros D R. destruct (DELETE_id_ok _ _ _ _ _ D R) as (oid & b & C & L & ->).
  pose proof (lookup_deleteOne (run history) oid (run_NoDup history)) as G.
  repeat split.
  - now apply deleteOne_length with (b := b).
  - intros now. unfold GET_id, findById. rewrite C. cbn [bind].
    now rewrite G.
  - intros now other updates. unfold PUT_id, findById. rewrite C.
    cbn [bind]. now rewrite G.
  - intros other. unfold DELETE_id, findById. rewrite C. cbn [bind].
    now rewrite G.
  - intros oid' N. apply lookup_deleteOne_other. congruence.
Qed.

(** X5: the owner of a broadcast and every admin may delete it: the delete
    is answered 200 and removes the broadcast; and neither is ever answered
    403 or 404 by an update of it. *)
Theorem owner_or_admin_allowed (now : Z) (id_ : string) (user : Identity)
  (updates : Body) (s : Store) (b : Broadcast) (owner : ObjectId) :
  findById s id_ = Returned (Some b) ->
  createdBy b = Some owner ->
  id user = owner \/ identity_role user = "admin" ->
  DELETE_id id_ user s =
    (json 200 true (Some "Broadcast deleted successfully") NoData,
     deleteOne (_id b) s) /\
  res_status (fst (PUT_id now id_ user updates s)) <> 403 /\
  res_status (fst (PUT_id now id_ user updates s)) <> 404.
Proof.
  intros F C A.
  assert (R : refused owner user = false).
  { unfold refused. destruct A as [E|E]; rewrite E.
    - now rewrite String.eqb_refl.
    - cbn. apply andb_false_r. }
  unfold DELETE_id, PUT_id. rewrite F. cbn [bind]. rewrite C. cbn [toString bind].
  rewrite R. repeat split.
  - destruct (save now _ s) as [[b' s']|e]; cbn; discriminate.
  - destruct (save now _ s) as [[b' s']|e]; cbn; discriminate.
Qed.

(** ** Update *)

Lemma lookup_replaceOne_other (b : Broadcast) (s : Store) (oid' : ObjectId) :
  oid' <> _id b -> lookup (replaceOne b s) oid' = lookup s oid'.
Proof.
  intros D. unfold lookup. induction s as [|x rest IH]; simpl; [reflexivity|].
  assert (Nb : hasId oid' b = false)
    by (unfold hasId; apply String.eqb_neq; congruence).
  destruct (hasId (_id b) x) eqn:E; simpl.
  - apply hasId_true in E. rewrite Nb.
    replace (hasId oid' x) with false; [reflexivity|].
    symmetry. unfold hasId. apply String.eqb_neq. congruence.
  - now rewrite IH.
Qed.

Lemma replaceOne_length (b : Broadcast) (s : Store) :
  List.length (replaceOne b s) = List.length s.
Proof.
  rewrite <- (length_map _id (replaceOne b s)), replaceOne_ids.
  apply length_map.
Qed.

(** What an update that succeeded wrote. *)
Lemma PUT_id_ok (now : Z) (id_ : string) (user : Identity) (updates : Body)
  (s : Store) (res : Response) (s' : Store) (b : Broadcast) :
  PUT_id now id_ user updates s = (res, s') ->
  res_status res = 200 ->
  findById s id_ = Returned (Some b) ->
  let d := fold_left setEntry updates (loaded b) in
  let b' := preSave now (timestamps now d) in
  invalidated d = false /\ validate (fields d) = true /\
  res_data res = Item b' /\ s' = replaceOne b' s /\ _id b' = _id b /\
  lookup s' (_id b) = Some b'.
Proof.
  intros H R F d b'. unfold PUT_id in H. rewrite F in H. cbn [bind] in H.
  unfold findById in F. destruct (castObjectId id_) as [oid|]; [|discriminate].
  inversion F as [L]. clear F.
  destruct (toString (createdBy b)) as [owner|e]; cbn [bind tryCatch] in H;
    [|inversion H; subst; discriminate].
  destruct (refused owner user); cbn [bind tryCatch] in H;
    [inversion H; subst; discriminate|].
  fold d in H.
  destruct (save now d s) as [[b1 s1]|e] eqn:S; cbn [bind tryCatch fst snd] in H;
    [|inversion H; subst; discriminate].
  inversion H; subst res s'. clear H.
  apply save_existing in S; [|unfold d; now rewrite setEntries_isNew].
  destruct S as (I & V & Hb & Hs). fold b' in Hb. subst b1 s1.
  assert (Hid : _id b' = _id b).
  { unfold b'. destruct (preSave_fields now (timestamps now d)) as (-> & _).
    destruct (timestamps_fields now d) as (-> & _).
    unfold d. now rewrite setEntries_id. }
  repeat split; auto.
  rewrite <- Hid. apply lookup_replaceOne with (x := b).
  now rewrite Hid, (lookup_id _ _ _ L).
Qed.

Lemma setEntries_frame {B : Type} (get : Broadcast -> B) (key : string)
  (updates : Body) (d : Document) :
  (forall e d', keyName e <> key ->
                get (fields (setEntry d' e)) = get (fields d')) ->
  hasKey key updates = false ->
  get (fields (fold_left setEntry updates d)) = get (fields d).
Proof.
  intros F. revert d. induction updates as [|e rest IH]; intros d H;
    [reflexivity|].
  simpl in H. apply orb_false_elim in H. destruct H as [He Hr].
  simpl. rewrite (IH _ Hr). apply F. now apply String.eqb_neq.
Qed.

Ltac other_key :=
  let e := fresh "e" in
  let d := fresh "d" in
  let H := fresh "H" in
  intros e d H; destruct e; simpl;
  try (break_assign; reflexivity);
  exfalso; apply H; reflexivity.

Lemma saved_path {B : Type} (get : Broadcast -> B) (now : Z) (d : Document) :
  (forall v b, get (set_status v b) = get b) ->
  (forall t b, get (set_updatedAt t b) = get b) ->
  (forall t b, get (set_createdAt t b) = get b) ->
  isNew d = false ->
  get (preSave now (timestamps now d)) = get (fields d).
Proof.
  intros Hs Hu Hc N. unfold preSave, timestamps. rewrite N.
  destruct (isModified d);
    destruct (expiryDate _) as [t|]; try destruct (t <? now);
    rewrite ?Hs, ?Hu; reflexivity.
Qed.

(** X6: among the paths that the schema declares, an update with a payload
    of such paths touches those the payload names and no other: a path
    whose key the payload lacks keeps its stored value, the broadcast stays
    under its id, and the other broadcasts of the collection stay as they
    are.  The status is the exception: without a [status] key it is kept
    unless the expiry date of the updated record lies in the past, in
    which case it is [expired].  The two timestamps are left out of the
    statement. *)
Theorem update_touches_named_paths (now : Z) (id_ : string) (user : Identity)
  (updates : Body) (s : Store) (res : Response) (s' : Store)
  (b : Broadcast) :
  PUT_id now id_ user updates s = (res, s') ->
  res_status res = 200 ->
  findById s id_ = Returned (Some b) ->
  exists b',
    lookup s' (_id b) = Some b' /\ res_data res = Item b' /\
    _id b' = _id b /\
    (hasKey "title" updates = false -> title b' = title b) /\
    (hasKey "message" updates = false -> message b' = message b) /\
    (hasKey "urgency" updates = false -> urgency b' = urgency b) /\
    (hasKey "type" updates = false -> type b' = type b) /\
    (hasKey "tags" updates = false -> tags b' = tags b) /\
    (hasKey "createdBy" updates = false -> createdBy b' = createdBy b) /\
    (hasKey "expiryDate" updates = false -> expiryDate b' = expiryDate b) /\
    (hasKey "views" updates = false -> views b' = views b) /\
    (hasKey "priority" updates = false -> priority b' = priority b) /\
    (hasKey "status" updates = false ->
     status b' = if isExpired now b' then Some "expired" else status b) /\
    List.length s' = List.length s /\
    (forall oid', oid' <> _id b -> lookup s' oid' = lookup s oid').
Proof.
  intros H R F.
  destruct (PUT_id_ok _ _ _ _ _ _ _ _ H R F) as (_ & _ & D & -> & Hid & L).
  set (d := fold_left setEntry updates (loaded b)) in *.
  assert (N : isNew d = false) by (unfold d; now rewrite setEntries_isNew).
  exists (preSave now (timestamps now d)).
  split; [exact L|]. split; [exact D|]. split; [exact Hid|].
  repeat split.
  - intros K. rewrite (saved_path title) by auto.
    apply (setEntries_frame title "title"); [other_key|exact K].
  - intros K. rewrite (saved_path message) by auto.
    apply (setEntries_frame message "message"); [other_key|exact K].
  - intros K. rewrite (saved_path urgency) by auto.
    apply (setEntries_frame urgency "urgency"); [other_key|exact K].
  - intros K. rewrite (saved_path type) by auto.
    apply (setEntries_frame type "type"); [other_key|exact K].
  - intros K. rewrite (saved_path tags) by auto.
    apply (setEntries_frame tags "tags"); [other_key|exact K].
  - intros K. rewrite (saved_path createdBy) by auto.
    apply (setEntries_frame createdBy "createdBy"); [other_key|exact K].
  - intros K. rewrite (saved_path expiryDate) by auto.
    apply (setEntries_frame expiryDate "expiryDate"); [other_key|exact K].
  - intros K. rewrite (saved_path views) by auto.
    apply (setEntries_frame views "views"); [other_key|exact K].
  - intros K. rewrite (saved_path priority) by auto.
    apply (setEntries_frame priority "priority"); [other_key|exact K].
  - intros K. rewrite preSave_isExpired, preSave_status.
    replace (status (timestamps now d)) with (status b); [reflexivity|].
    destruct (timestamps_fields now d)
      as (_ & _ & _ & _ & _ & _ & _ & _ & -> & _).
    symmetry. apply (setEntries_frame status "status"); [other_key|exact K].
  - apply replaceOne_length.
  - intros oid' O. apply lookup_replaceOne_other. now rewrite Hid.
Qed.

Lemma validate_new_owner (b : Broadcast) (o : ObjectId) :
  validate b = true -> validate (set_createdBy (Some o) b) = true.
Proof.
  unfold validate. simpl. intros V.
  repeat (apply andb_prop in V; destruct V as [V ?]).
  repeat (apply andb_true_intro; split); auto.
Qed.

(** X7: the owner of a broadcast can give it away: an update whose payload
    sets [createdBy] to another id succeeds, and from then on the former
    owner, unless an admin, is answered 403 by update and delete, while
    the user whose id was written may delete the broadcast. *)
Theorem ownership_given_away (history : list Request) (now : Z)
  (id_ : string) (user : Identity) (o' : ObjectId) (b : Broadcast) :
  findById (run history) id_ = Returned (Some b) ->
  createdBy b = Some (id user) ->
  identity_role user <> "admin" ->
  o' <> id user ->
  exists b' s',
    PUT_id now id_ user [Key_createdBy (Value o')] (run history) =
      (json 200 true (Some "Broadcast updated successfully") (Item b'), s') /\
    lookup s' (_id b) = Some b' /\ createdBy b' = Some o' /\
    (forall now' updates,
       PUT_id now' id_ user updates s' = (notAuthorized, s')) /\
    DELETE_id id_ user s' = (notAuthorized, s') /\
    (forall role_,
       res_status (fst (DELETE_id id_ (mkIdentity o' role_) s')) = 200).
Proof.
  intros F C A D. pose proof F as F0. unfold findById in F.
  destruct (castObjectId id_) as [oid|] eqn:Cast; [|discriminate].
  inversion F as [L]. clear F.
  pose proof (lookup_id _ _ _ L) as Hid.
  assert (V : validate b = true)
    by (apply run_valid with (history := history);
        now apply lookup_In with (oid := oid)).
  assert (Ed : setEntry (loaded b) (Key_createdBy (Value o')) =
               mkDocument (set_createdBy (Some o') b) false true false).
  { cbn [setEntry]. unfold assign, same.
    cbn [loaded fields isNew isModified invalidated]. rewrite C.
    cbn [option_eqb].
    replace (String.eqb o' (id user)) with false
      by (symmetry; now apply String.eqb_neq).
    reflexivity. }
  set (b' := preSave now (set_updatedAt now (set_createdBy (Some o') b))).
  assert (Hid' : _id b' = oid).
  { unfold b'. destruct (preSave_fields now (set_updatedAt now
      (set_createdBy (Some o') b))) as (-> & _). exact Hid. }
  assert (Hc : createdBy b' = Some o').
  { unfold b'. now destruct (preSave_fields now (set_updatedAt now
      (set_createdBy (Some o') b))) as (_ & _ & _ & ->). }
  assert (L' : lookup (replaceOne b' (run history)) oid = Some b').
  { rewrite <- Hid'. apply lookup_replaceOne with (x := b).
    now rewrite Hid'. }
  assert (R : refused o' user = true).
  { unfold refused. apply andb_true_intro. split; apply negb_true_iff;
      now apply String.eqb_neq. }
  exists b', (replaceOne b' (run history)). repeat split.
  - unfold PUT_id. rewrite F0. cbn [bind]. rewrite C. cbn [toString bind].
    replace (refused (id user) user) with false
      by (unfold refused; now rewrite String.eqb_refl).
    cbn [fold_left]. rewrite Ed.
    rewrite save_total; [reflexivity|reflexivity|reflexivity|].
    now apply validate_new_owner.
  - now rewrite Hid.
  - exact Hc.
  - intros now' updates. unfold PUT_id, findById. rewrite Cast. cbn [bind].
    rewrite L'. rewrite Hc. cbn [toString bind]. now rewrite R.
  - unfold DELETE_id, findById. rewrite Cast. cbn [bind].
    rewrite L'. rewrite Hc. cbn [toString bind]. now rewrite R.
  - intros role_. unfold DELETE_id, findById. rewrite Cast. cbn [bind].
    rewrite L'. rewrite Hc. cbn [toString bind].
    replace (refused o' (mkIdentity o' role_)) with false
      by (unfold refused; cbn; now rewrite String.eqb_refl).
    reflexivity.
Qed.

(** X8: nothing but an explicit [status] in the payload takes a broadcast
    out of [expired]: after a successful update without a [status] key, a
    broadcast that was stored [expired] is still [expired], also when the
    update moved its expiry date into the future or removed it. *)
Theorem expired_stays_expired (now : Z) (id_ : string) (user : Identity)
  (updates : Body) (s : Store) (res : Response) (s' : Store)
  (b : Broadcast) :
  PUT_id now id_ user updates s = (res, s') ->
  res_status res = 200 ->
  findById s id_ = Returned (Some b) ->
  status b = Some "expired" ->
  hasKey "status" updates = false ->
  exists b', lookup s' (_id b) = Some b' /\ status b' = Some "expired".
Proof.
  intros H R F E K.
  destruct (PUT_id_ok _ _ _ _ _ _ _ _ H R F) as (_ & _ & _ & _ & _ & L).
  eexists. split; [exact L|].
  rewrite preSave_status.
  destruct (isExpired now _); [reflexivity|].
  destruct (timestamps_fields now (fold_left setEntry updates (loaded b)))
    as (_ & _ & _ & _ & _ & _ & _ & _ & -> & _).
  rewrite <- E. apply (setEntries_frame status "status"); [other_key|exact K].
Qed.

(** ** Read *)






(** X11: every broadcast the router has stored is well formed: it has a
    title of 1 to 200 characters and a message of 1 to 5000, its urgency,
    type and status are values of their enumerations, and it has an
    owner. *)
Theorem stored_wellformed (history : list Request) (b : Broadcast) :
  In b (run history) ->
  exists t m u ty st o,
    title b = Some t /\ t <> "" /\ (String.length t <= 200)%nat /\
    message b = Some m /\ m <> "" /\ (String.length m <= 5000)%nat /\
    urgency b = Some u /\ In u urgencyEnum /\
    type b = Some ty /\ In ty typeEnum /\
    status b = Some st /\ In st statusEnum /\
    createdBy b = Some o.
Proof.
  intros H. apply run_valid in H. unfold validate in H.
  apply andb_prop in H. destruct H as [H Hst].
  apply andb_prop in H. destruct H as [H Ho].
  apply andb_prop in H. destruct H as [H Hty].
  apply andb_prop in H. destruct H as [H Hu].
  apply andb_prop in H. destruct H as [H Hml].
  apply andb_prop in H. destruct H as [H Hm].
  apply andb_prop in H. destruct H as [Ht Htl].
  assert (E : forall vals v, enum vals v = true ->
                             exists x, v = Some x /\ In x vals).
  { intros vals [x|] X; [|discriminate]. exists x. split; [reflexivity|].
    simpl in X. apply existsb_exists in X.
    destruct X as (y & Hin & Hy). apply String.eqb_eq in Hy. now subst. }
  assert (Q : forall v, requiredString v = true ->
                        exists x, v = Some x /\ x <> "").
  { intros [x|] X; [|discriminate]. exists x. split; [reflexivity|].
    apply String.eqb_neq. now apply negb_true_iff. }
  destruct (Q _ Ht) as (t & Et & Nt). destruct (Q _ Hm) as (m & Em & Nm).
  destruct (E _ _ Hu) as (u & Eu & Iu). destruct (E _ _ Hty) as (ty & Ety & Ity).
  destruct (E _ _ Hst) as (st & Est & Ist).
  destruct (createdBy b) as [o|]; [|discriminate].
  exists t, m, u, ty, st, o.
  rewrite Et in Htl. rewrite Em in Hml. simpl in Htl, Hml.
  apply Nat.leb_le in Htl. apply Nat.leb_le in Hml.
  repeat split; auto.
Qed.

(** ** Listing, page by page *)

Lemma firstn_plus {A : Type} (n m : nat) (l : list A) :
  firstn (n + m) l = firstn n l ++ firstn m (skipn n l).
Proof.
  revert l. induction n as [|n IH]; intros l; [reflexivity|].
  destruct l as [|x l]; simpl.
  - now rewrite firstn_nil.
  - now rewrite IH.
Qed.

(** X12: the pages of a listing tile its result.  For a positive limit, a
    search term that the database accepts when one is given, page numbers
    and a limit that the handler reads and multiplies exactly, and a sort
    under which no two matching broadcasts tie, so that every run of the
    query gives them in the same order: the items of pages 1 to [k], put
    end to end, are the first [k * limit] matching broadcasts in sort
    order, and the pages 1 to [ceil(total / limit)] together are all of
    them, each once and in order. *)
Theorem pages_tile (regex : string -> option (string -> bool))
  (q : ListQuery) (s : Store) (search : option (string -> bool)) :
  let limit_ := orDefault 20 (q_limit q) in
  let sort := orDefault newestFirst (q_sort q) in
  let query :=
    mkQuery (truthy (q_type q)) (truthy (q_urgency q))
      (truthy (Some (orDefault "active" (q_status q)))) search in
  let ordered := sortDocs sort (filter (matches query) s) in
  let pageItems (n : nat) :=
    itemsOf (fst (GET_list regex (atPage q (Z.of_nat n)) s)) in
  0 < limit_ ->
  searchFilter regex (q_search q) = Returned search ->
  countDocuments query s + limit_ <= 2 ^ 53 ->
  tieFree sort (filter (matches query) s) = true ->
  (forall k, Z.of_nat k * limit_ <= 2 ^ 53 ->
             List.concat (map pageItems (seq 1 k)) =
             firstn (k * Z.to_nat limit_) ordered) /\
  List.concat
    (map pageItems
       (seq 1 (Z.to_nat (ceilDiv (countDocuments query s) limit_))))
  = ordered.
Proof.
  intros limit_ sort query ordered pageItems Hl Hs HN _.
  assert (P : forall n, Z.of_nat (S n) * limit_ <= 2 ^ 53 ->
                        pageItems (S n) =
                        firstn (Z.to_nat limit_)
                          (skipn (n * Z.to_nat limit_) ordered)).
  { intros n Hn. unfold pageItems.
    rewrite (GET_list_exact regex (atPage q (Z.of_nat (S n))) s search);
      cbn [atPage q_page q_limit q_type q_urgency q_status q_search q_sort
           orDefault]; try lia; try exact Hs; try exact Hn.
    cbn [fst itemsOf res_data json]. fold limit_ query ordered.
    f_equal. f_equal. lia. }
  assert (T : forall k, Z.of_nat k * limit_ <= 2 ^ 53 ->
                        List.concat (map pageItems (seq 1 k)) =
                        firstn (k * Z.to_nat limit_) ordered).
  { induction k as [|k IH]; intros Hk; [reflexivity|].
    rewrite seq_S, map_app, concat_app, IH by lia.
    cbn [map List.concat Nat.add].
    rewrite app_nil_r, P by exact Hk.
    replace (S k * Z.to_nat limit_)%nat
      with (k * Z.to_nat limit_ + Z.to_nat limit_)%nat by lia.
    now rewrite firstn_plus. }
  split; [exact T|].
  pose proof (ceilDiv_bounds (countDocuments query s) limit_ Hl) as B.
  assert (N0 : 0 <= countDocuments query s) by (unfold countDocuments; lia).
  rewrite T by nia. apply firstn_all2.
  unfold ordered at 1.
  rewrite (Permutation_length (sortDocs_perm _ _)).
  unfold countDocuments in *. fold query in B. nia.
Qed.

(** X13: a page beyond the last is empty, not an error: for a positive
    page and limit that the handler reads and multiplies exactly, a search
    term that the database accepts when one is given, and a page number
    above [ceil(total / limit)], the listing answers 200 with no items
    and the same [total] and [pages]. *)
Theorem page_beyond_last_is_empty (regex : string -> option (string -> bool))
  (q : ListQuery) (s : Store) (search : option (string -> bool)) :
  let page_ := orDefault 1 (q_page q) in
  let limit_ := orDefault 20 (q_limit q) in
  let query :=
    mkQuery (truthy (q_type q)) (truthy (q_urgency q))
      (truthy (Some (orDefault "active" (q_status q)))) search in
  0 < limit_ ->
  page_ * limit_ <= 2 ^ 53 ->
  searchFilter regex (q_search q) = Returned search ->
  ceilDiv (countDocuments query s) limit_ < page_ ->
  GET_list regex q s =
    (json 200 true None
       (Items []
          (mkPagination page_ limit_ (countDocuments query s)
             (Some (ceilDiv (countDocuments query s) limit_)))), s).
Proof.
  intros page_ limit_ query Hl Hb Hs Hp.
  pose proof (ceilDiv_bounds (countDocuments query s) limit_ Hl) as B.
  assert (N0 : 0 <= countDocuments query s)
    by (unfold countDocuments; lia).
  rewrite (GET_list_exact regex q s search); fold page_ limit_ query;
    try exact Hs; try exact Hl; try exact Hb; [|nia].
  rewrite skipn_all2; [now rewrite firstn_nil|].
  rewrite (Permutation_length (sortDocs_perm _ _)).
  unfold countDocuments in *. nia.
Qed.

Lemma Sorted_skipn {A : Type} (R : A -> A -> Prop) (n : nat) (l : list A) :
  Sorted R l -> Sorted R (skipn n l).
Proof.
  revert l. induction n as [|n IH]; intros l S; [exact S|].
  destruct l as [|x l]; [exact S|]. simpl. apply IH.
  now inversion S.
Qed.

Lemma Sorted_firstn {A : Type} (R : A -> A -> Prop) (n : nat) (l : list A) :
  Sorted R l -> Sorted R (firstn n l).
Proof.
  revert l. induction n as [|n IH]; intros l S; [constructor|].
  destruct l as [|x l]; [constructor|]. simpl.
  inversion S as [|? ? Sl Hd]; subst. constructor; [now apply IH|].
  destruct n; [constructor|].
  destruct l as [|y l]; [constructor|]. simpl.
  inversion Hd; subst. now constructor.
Qed.

Lemma Sorted_weaken {A : Type} (R R' : A -> A -> Prop) (l : list A) :
  (forall a b, R a b -> R' a b) -> Sorted R l -> Sorted R' l.
Proof.
  intros W S. induction S as [|x l S IH Hd]; constructor; auto.
  destruct Hd; constructor; auto.
Qed.

(** X14: the items of a listing come in the order asked for: each item
    may stand before the next under the given sort, and without a [sort]
    parameter no item is older than the next. *)
Theorem listing_in_order (regex : string -> option (string -> bool))
  (q : ListQuery) (s : Store) (l : list Broadcast) (p : Pagination) :
  fst (GET_list regex q s) = json 200 true None (Items l p) ->
  Sorted (inOrder (orDefault newestFirst (q_sort q))) l /\
  (q_sort q = None -> Sorted (fun a b => createdAt b <= createdAt a) l).
Proof.
  unfold GET_list.
  destruct (searchFilter regex (q_search q)) as [search|e];
    cbn [bind tryCatch fst]; [|discriminate].
  unfold find.
  destruct (jsTimes (jsMinus (toDouble (orDefault 1 (q_page q))) 1)
              (toDouble (orDefault 20 (q_limit q))) <? 0);
    cbn [bind tryCatch fst]; [discriminate|].
  intros H. inversion H as [[Hl Hp]]. clear H Hp. rewrite Hl.
  assert (S : Sorted (inOrder (orDefault newestFirst (q_sort q))) l).
  { rewrite <- Hl. unfold limitTo.
    destruct (toDouble (orDefault 20 (q_limit q)) =? 0);
      [|apply Sorted_firstn]; apply Sorted_skipn, sortDocs_sorted. }
  split; [exact S|].
  intros E. rewrite E in S. cbn [orDefault] in S.
  apply Sorted_weaken with (R := inOrder newestFirst); [|exact S].
  intros a b. unfold inOrder, newestFirst. cbn.
  destruct (createdAt a ?= createdAt b) eqn:C; cbn; intros O.
  - apply Z.compare_eq in C. lia.
  - congruence.
  - apply Z.compare_gt_iff in C. lia.
Qed.

(** * Properties of the statistics *)

Lemma sameKey_eq (a b : option string) : sameKey a b = true <-> a = b.
Proof.
  unfold sameKey. destruct a as [x|], b as [y|]; simpl; split; intros H;
    try discriminate; try reflexivity.
  - f_equal. now apply String.eqb_eq.
  - inversion H. apply String.eqb_refl.
Qed.

Lemma sameKey_refl (a : option string) : sameKey a a = true.
Proof. now apply sameKey_eq. Qed.

Lemma sameKey_neq (a b : option string) : sameKey a b = false <-> a <> b.
Proof.
  split.
  - intros H E. apply sameKey_eq in E. congruence.
  - intros H. destruct (sameKey a b) eqn:E; [|reflexivity].
    apply sameKey_eq in E. contradiction.
Qed.

Lemma groupBy_snoc (key : Broadcast -> option string) (l : list Broadcast)
  (b : Broadcast) :
  groupBy key (l ++ [b]) = addTo (key b) (groupBy key l).
Proof. unfold groupBy. now rewrite fold_left_app. Qed.

Lemma sumCounts_addTo (k : option string) (groups : list Group) :
  sumCounts (addTo k groups) = sumCounts groups + 1.
Proof.
  unfold sumCounts. induction groups as [|g rest IH];
    cbn [addTo map fold_right count]; [reflexivity|].
  destruct (sameKey (group_id g) k); cbn [map fold_right count]; [ring|].
  rewrite IH. ring.
Qed.

Lemma countOf_addTo (k k' : option string) (groups : list Group) :
  countOf k' (addTo k groups) =
  countOf k' groups + (if sameKey k k' then 1 else 0).
Proof.
  unfold countOf. induction groups as [|g rest IH]; simpl.
  - destruct (sameKey k k'); reflexivity.
  - destruct (sameKey (group_id g) k) eqn:E; simpl.
    + apply sameKey_eq in E. rewrite E.
      destruct (sameKey k k'); cbn [count]; ring.
    + destruct (sameKey (group_id g) k') eqn:E'; [|exact IH].
      apply sameKey_eq in E'. rewrite <- E'.
      replace (sameKey k (group_id g)) with false; [ring|].
      symmetry. apply sameKey_neq. apply sameKey_neq in E. congruence.
Qed.

Lemma addTo_keys (k : option string) (groups : list Group) :
  map group_id (addTo k groups) =
  if existsb (fun g => sameKey (group_id g) k) groups
  then map group_id groups
  else map group_id groups ++ [k].
Proof.
  induction groups as [|g rest IH]; simpl; [reflexivity|].
  destruct (sameKey (group_id g) k); simpl; [reflexivity|].
  rewrite IH. now destruct (existsb _ rest).
Qed.

Lemma addTo_positive (k : option string) (groups : list Group) :
  Forall (fun g => 0 < count g) groups ->
  Forall (fun g => 0 < count g) (addTo k groups).
Proof.
  induction groups as [|g rest IH]; simpl; intros F.
  - repeat constructor.
  - inversion F; subst. destruct (sameKey (group_id g) k); constructor;
      simpl; auto; lia.
Qed.

Lemma occurrences_snoc (key : Broadcast -> option string)
  (k : option string) (l : list Broadcast) (b : Broadcast) :
  occurrences key k (l ++ [b]) =
  occurrences key k l + (if sameKey (key b) k then 1 else 0).
Proof.
  unfold occurrences. rewrite filter_app, length_app. simpl.
  destruct (sameKey (key b) k); simpl; lia.
Qed.

Lemma countOf_member (groups : list Group) (g : Group) :
  NoDup (map group_id groups) -> In g groups ->
  countOf (group_id g) groups = count g.
Proof.
  unfold countOf. induction groups as [|x rest IH]; simpl; intros N H;
    [tauto|].
  inversion N as [|? ? Hx Hr]; subst. destruct H as [H|H].
  - subst x. now rewrite sameKey_refl.
  - destruct (sameKey (group_id x) (group_id g)) eqn:E; [|now apply IH].
    apply sameKey_eq in E. exfalso. apply Hx. rewrite E. now apply in_map.
Qed.

(** What [$group] with [$sum: 1] computes. *)
Lemma groupBy_exact (key : Broadcast -> option string) (l : list Broadcast) :
  NoDup (map group_id (groupBy key l)) /\
  Forall (fun g => 0 < count g) (groupBy key l) /\
  (forall k, countOf k (groupBy key l) = occurrences key k l) /\
  sumCounts (groupBy key l) = Z.of_nat (List.length l).
Proof.
  induction l as [|b l IH] using rev_ind.
  - repeat split; try constructor.
  - destruct IH as (N & P & C & S). rewrite groupBy_snoc. repeat split.
    + rewrite addTo_keys.
      destruct (existsb _ (groupBy key l)) eqn:E; [exact N|].
      apply NoDup_app_remove_l with (l := []). simpl.
      apply Permutation_NoDup
        with (l := key b :: map group_id (groupBy key l)).
      * apply Permutation_cons_append.
      * constructor; [|exact N]. intros H. apply in_map_iff in H.
        destruct H as (g & Hg & Hin).
        assert (X : existsb (fun g => sameKey (group_id g) (key b))
                      (groupBy key l) = true).
        { apply existsb_exists. exists g. split; [exact Hin|].
          now apply sameKey_eq. }
        congruence.
    + now apply addTo_positive.
    + intros k. now rewrite countOf_addTo, occurrences_snoc, C.
    + rewrite sumCounts_addTo, S, length_app. simpl. lia.
Qed.

Lemma occurrences_positive (key : Broadcast -> option string)
  (l : list Broadcast) (b : Broadcast) :
  In b l -> 0 < occurrences key (key b) l.
Proof.
  intros H. unfold occurrences.
  assert (I : In b (filter (fun x => sameKey (key x) (key b)) l))
    by (apply filter_In; split; [exact H|apply sameKey_refl]).
  destruct (filter _ l); [destruct I|simpl; lia].
Qed.

Lemma countOf_positive (k : option string) (groups : list Group) :
  0 < countOf k groups -> exists g, In g groups /\ group_id g = k.
Proof.
  unfold countOf. destruct (List.find _ groups) as [g|] eqn:F; [|lia].
  intros _. apply find_some in F. destruct F as [Hin Hk].
  exists g. split; [exact Hin|now apply sameKey_eq].
Qed.

(** X15: the statistics group exactly: [byUrgency] and [byType] hold one
    entry per value that occurs in the collection and none for a value
    that does not, and the count of an entry is the number of broadcasts
    with that value. *)
Theorem stats_groups_exact (s : Store) :
  let groupsOk (key : Broadcast -> option string) (groups : list Group) :=
    NoDup (map group_id groups) /\
    (forall g, In g groups ->
       0 < count g /\ count g = occurrences key (group_id g) s) /\
    (forall b, In b s -> exists g, In g groups /\ group_id g = key b) in
  groupsOk urgency (byUrgency (aggregate s)) /\
  groupsOk type (byType (aggregate s)).
Proof.
  assert (G : forall key,
             NoDup (map group_id (groupBy key s)) /\
             (forall g, In g (groupBy key s) ->
                0 < count g /\ count g = occurrences key (group_id g) s) /\
             (forall b, In b s ->
                exists g, In g (groupBy key s) /\ group_id g = key b)).
  { intros key. destruct (groupBy_exact key s) as (N & P & C & _).
    split; [exact N|]. split.
    - intros g Hin. split.
      + rewrite Forall_forall in P. now apply P.
      + rewrite <- C. symmetry. now apply countOf_member.
    - intros b Hin. apply countOf_positive. rewrite C.
      now apply occurrences_positive. }
  cbn zeta. split; apply G.
Qed.

(** X16: the counts of the statistics add up: the counts of [byUrgency]
    and those of [byType] each sum to the number of stored broadcasts. *)
Theorem stats_groups_sum (s : Store) :
  sumCounts (byUrgency (aggregate s)) = Z.of_nat (List.length s) /\
  sumCounts (byType (aggregate s)) = Z.of_nat (List.length s).
Proof.
  unfold aggregate. cbn [byUrgency byType].
  split; [apply (groupBy_exact urgency s)|apply (groupBy_exact type s)].
Qed.

Lemma active_occurrences (s : Store) :
  Z.of_nat (List.length (filter isActiveBroadcast s)) =
  occurrences status (Some "active") s.
Proof.
  unfold occurrences. do 2 f_equal.
Qed.

Lemma countStage_cases (l : list Broadcast) :
  countStage l = if (List.length l =? 0)%nat then []
                 else [Z.of_nat (List.length l)].
Proof. destruct l; reflexivity. Qed.

(** X17: the totals of the statistics are lists, not numbers: on an empty
    collection every facet is the empty list (no zero count is reported);
    otherwise [totalBroadcasts] holds the number of broadcasts, and
    [activeBroadcasts] is empty when no broadcast has the status [active]
    and holds their number, at most the total, when some have. *)
Theorem stats_totals (s : Store) :
  let n := Z.of_nat (List.length s) in
  let a := occurrences status (Some "active") s in
  (s = [] -> aggregate s = mkStats [] [] [] [] []) /\
  (s <> [] -> totalBroadcasts (aggregate s) = [n]) /\
  activeBroadcasts (aggregate s) = (if a =? 0 then [] else [a]) /\
  0 <= a <= n /\
  fst (GET_stats s) = mkReply 200 true None (Some (aggregate s)) /\
  snd (GET_stats s) = s.
Proof.
  cbn zeta. repeat split.
  - intros ->. reflexivity.
  - intros H. destruct s; [contradiction|reflexivity].
  - unfold aggregate. cbn [activeBroadcasts]. rewrite countStage_cases.
    rewrite <- active_occurrences.
    destruct (filter isActiveBroadcast s); reflexivity.
  - unfold occurrences. lia.
  - rewrite <- active_occurrences.
    pose proof (filter_length_le isActiveBroadcast s). lia.
Qed.

Lemma StronglySorted_cross {A : Type} (R : A -> A -> Prop) (l1 l2 : list A) :
  StronglySorted R (l1 ++ l2) ->
  forall x y, In x l1 -> In y l2 -> R x y.
Proof.
  induction l1 as [|a l1 IH]; simpl; intros S x y Hx Hy; [tauto|].
  inversion S as [|? ? Sl Fa]; subst. destruct Hx as [<-|Hx].
  - rewrite Forall_forall in Fa. apply Fa. apply in_or_app. now right.
  - now apply IH.
Qed.

Lemma newestFirst_order (a b : Broadcast) :
  inOrder newestFirst a b <-> createdAt b <= createdAt a.
Proof.
  unfold inOrder, newestFirst. cbn.
  destruct (Z.compare_spec (createdAt a) (createdAt b)) as [C|C|C]; cbn;
    split; intros H; try lia; try discriminate; try congruence.
Qed.

(** X18: [recentActivity] shows the most recent broadcasts: it has five
    entries, or as many as there are broadcasts when fewer; each entry is
    the id, title, creation time and urgency of a stored broadcast; no
    entry is older than the next; and no broadcast left out is newer than
    one that is shown. *)
Theorem stats_recent_activity (s : Store) :
  let recent := recentActivity (aggregate s) in
  List.length recent = Nat.min 5 (List.length s) /\
  (forall a, In a recent -> exists b, In b s /\ a = project b) /\
  Sorted (fun a a' => activity_createdAt a' <= activity_createdAt a) recent /\
  (forall b, In b s ->
     In (project b) recent \/
     forall a, In a recent -> createdAt b <= activity_createdAt a).
Proof.
  cbn zeta. unfold aggregate. cbn [recentActivity].
  set (ordered := sortDocs newestFirst s).
  assert (P : Permutation ordered s) by apply sortDocs_perm.
  assert (S : Sorted (fun a b => createdAt b <= createdAt a) ordered).
  { apply Sorted_weaken with (R := inOrder newestFirst);
      [intros a b; apply newestFirst_order|apply sortDocs_sorted]. }
  repeat split.
  - rewrite length_map, length_firstn. now rewrite (Permutation_length P).
  - intros a H. apply in_map_iff in H. destruct H as (b & <- & Hin).
    exists b. split; [|reflexivity].
    apply (Permutation_in _ P). now apply In_firstn in Hin.
  - apply Sorted_firstn with (n := 5%nat) in S.
    induction S as [|x l Sl IH Hd]; simpl; constructor; auto.
    destruct Hd; simpl; constructor; auto.
  - intros b Hin. apply (Permutation_in _ (Permutation_sym P)) in Hin.
    rewrite <- (firstn_skipn 5 ordered) in Hin.
    apply in_app_or in Hin. destruct Hin as [Hin|Hin].
    + left. now apply in_map.
    + right. intros a Ha. apply in_map_iff in Ha.
      destruct Ha as (x & <- & Hx). cbn.
      apply Sorted_StronglySorted in S.
      * rewrite <- (firstn_skipn 5 ordered) in S.
        exact (StronglySorted_cross _ _ _ S x b Hx Hin).
      * intros u v w Huv Hvw. lia.
Qed.

(** * Properties of the accounts *)

(** ** Login *)

Lemma first_with_id (users : Users) (x user : User) :
  NoDup (map user_id (x :: users)) -> In user (x :: users) ->
  user_id x = user_id user -> x = user.
Proof.
  intros N [H|H] E; [exact H|].
  inversion N as [|? ? Hx _]; subst. exfalso. apply Hx. rewrite E.
  now apply in_map.
Qed.

Lemma saveUser_lastLogin (users : Users) (user : User) (t : option Z) :
  NoDup (map user_id users) -> In user users ->
  map (set_lastLogin None) (saveUser (set_lastLogin t user) users) =
  map (set_lastLogin None) users.
Proof.
  induction users as [|x rest IH]; intros N H; [destruct H|].
  cbn [saveUser set_lastLogin user_id].
  destruct (String.eqb (user_id x) (user_id user)) eqn:E.
  - apply String.eqb_eq in E.
    rewrite (first_with_id rest x user N H E). reflexivity.
  - cbn [map]. f_equal. apply IH.
    + now inversion N.
    + destruct H as [H|H]; [|exact H]. subst x.
      rewrite String.eqb_refl in E. discriminate.
Qed.

Lemma findOne_In (users : Users) (email_ : string) (user : User) :
  findOne users email_ = Some user -> In user users /\ email user = email_.
Proof.
  unfold findOne. intros H. apply find_some in H. destruct H as [Hin He].
  split; [exact Hin|now apply String.eqb_eq].
Qed.

(** X19: a login changes nothing but the [lastLogin] of a user: whatever
    the outcome, every user keeps the id, name, email, password hash, role,
    activity flag and preferences it had; and a login that is not answered
    200 changes nothing at all. *)
Theorem login_touches_lastLogin_only
  (comparePassword : User -> string -> bool) (now : Z)
  (email_ password_ : string) (users : Users) :
  NoDup (map user_id users) ->
  map (set_lastLogin None)
    (snd (POST_login comparePassword now email_ password_ users))
  = map (set_lastLogin None) users /\
  (res_status (fst (POST_login comparePassword now email_ password_ users))
     <> 200 ->
   snd (POST_login comparePassword now email_ password_ users) = users).
Proof.
  intros N. unfold POST_login.
  destruct (findOne users email_) as [user|] eqn:F; [|auto].
  destruct (comparePassword user password_); cbn [negb]; [|auto].
  destruct (isActive user); cbn [negb fst snd]; [|auto].
  split.
  - apply saveUser_lastLogin; [exact N|]. now apply findOne_In in F.
  - intros H. now contradiction H.
Qed.

Lemma findOne_saveUser (users : Users) (email_ : string) (user : User)
  (t : option Z) :
  NoDup (map user_id users) ->
  findOne users email_ = Some user ->
  findOne (saveUser (set_lastLogin t user) users) email_ =
  Some (set_lastLogin t user).
Proof.
  unfold findOne. induction users as [|x rest IH]; intros N F;
    [discriminate|].
  cbn [List.find] in F. cbn [saveUser set_lastLogin user_id].
  destruct (String.eqb (email x) email_) eqn:E.
  - inversion F; subst x. rewrite String.eqb_refl. cbn [List.find].
    change (email (set_lastLogin t user)) with (email user).
    now rewrite E.
  - assert (Hin : In user rest) by now apply find_some in F.
    destruct (String.eqb (user_id x) (user_id user)) eqn:I.
    + apply String.eqb_eq in I. exfalso.
      inversion N as [|? ? Hx _]; subst. apply Hx. rewrite I.
      now apply in_map.
    + cbn [List.find]. rewrite E. apply IH; [now inversion N|exact F].
Qed.

(** X20: a login with the email of an active user and a password that
    matches is answered 200 with a token made out to the id and role of
    that user, and with the user's profile; the user is stored with
    [lastLogin] set to the time of the login.  The token counts in
    seconds: it expires seven days, 604800 seconds, after the second at
    which it was issued. *)
Theorem login_succeeds (comparePassword : User -> string -> bool) (now : Z)
  (email_ password_ : string) (users : Users) (user : User) :
  NoDup (map user_id users) ->
  findOne users email_ = Some user ->
  comparePassword user password_ = true ->
  isActive user = true ->
  exists t users',
    POST_login comparePassword now email_ password_ users =
      (json 200 true (Some "Login successful")
         (Session t (profile (set_lastLogin (Some now) user))), users') /\
    token_id t = user_id user /\ token_role t = role user /\
    exp t = iat t + 604800 /\
    findOne users' email_ = Some (set_lastLogin (Some now) user).
Proof.
  intros N F P A. unfold POST_login. rewrite F, P, A. cbn [negb].
  eexists. eexists. split; [reflexivity|].
  split; [reflexivity|]. split; [reflexivity|].
  cbn [sign iat exp]. split; [reflexivity|].
  now apply findOne_saveUser.
Qed.

(** ** Registration *)

(** X21: a registration under an email or a user name that a stored user
    already has is answered 400 [User already exists]; nothing is stored
    and no user is created. *)
Theorem register_refuses_taken
  (createUser : string -> string -> string -> Users -> Result User)
  (now : Z) (username_ email_ password_ : string) (users : Users)
  (u : User) :
  In u users ->
  email u = email_ \/ username u = username_ ->
  POST_register createUser now username_ email_ password_ users =
    (replyError 400 "User already exists", users).
Proof.
  intros Hin T. unfold POST_register.
  destruct (findOneByEmailOrUsername users email_ username_) eqn:F;
    [reflexivity|].
  unfold findOneByEmailOrUsername in F.
  pose proof (find_none _ _ F u Hin) as X. cbn beta in X.
  apply orb_false_elim in X. destruct X as [Xe Xu].
  apply String.eqb_neq in Xe. apply String.eqb_neq in Xu.
  destruct T; contradiction.
Qed.

(** ** The profile *)

Lemma allowed_key (key : string) :
  existsb (String.eqb key) allowedUpdates = true ->
  key = "username" \/ key = "email" \/ key = "preferences".
Proof.
  unfold allowedUpdates. cbn [existsb]. intros H.
  repeat (apply orb_prop in H; destruct H as [H|H]);
    try discriminate; apply String.eqb_eq in H; auto.
Qed.

Lemma setUserPath_guarded (u : User) (kv : string * string) :
  existsb (String.eqb (fst kv)) allowedUpdates = true ->
  guarded (setUserPath u kv) = guarded u.
Proof.
  destruct kv as [key v]. cbn [fst]. intros H.
  destruct (allowed_key key H) as [E|[E|E]]; rewrite E; reflexivity.
Qed.

Lemma filtered_guarded (updates : Updates) (u : User) :
  guarded (fold_left setUserPath (filterUpdates updates) u) = guarded u.
Proof.
  unfold filterUpdates. revert u.
  induction updates as [|kv rest IH]; intros u; [reflexivity|].
  cbn [filter].
  destruct (existsb (String.eqb (fst kv)) allowedUpdates) eqn:A; [|apply IH].
  cbn [fold_left]. rewrite IH. now apply setUserPath_guarded.
Qed.

Lemma updateById_shape (oid : ObjectId) (updates : Updates) (users : Users)
  (u' : User) (users' : Users) :
  updateById oid updates users = Some (u', users') ->
  exists before u after,
    users = before ++ u :: after /\ users' = before ++ u' :: after /\
    user_id u = oid /\ u' = fold_left setUserPath updates u /\
    forall x, In x before -> user_id x <> oid.
Proof.
  revert u' users'. induction users as [|x rest IH]; intros u' users' H;
    [discriminate|]. cbn [updateById] in H.
  destruct (String.eqb (user_id x) oid) eqn:E.
  - inversion H; subst. apply String.eqb_eq in E.
    exists [], x, rest. repeat split; auto.
  - destruct (updateById oid updates rest) as [[y rest']|] eqn:U;
      [|discriminate].
    inversion H; subst.
    destruct (IH _ _ eq_refl) as (before & u & after & -> & -> & I & F & B).
    exists (x :: before), u, after. repeat split; auto.
    intros z [Hz|Hz]; [subst z; now apply String.eqb_neq|now apply B].
Qed.

(** X22: a profile update cannot touch what it must not: whatever keys the
    body carries, [role], [password], [isActive] and others among them,
    every user keeps its id, password hash, role, activity flag and last
    login, the users are as many as before, and the users with another id
    than the caller's are left exactly as they were. *)
Theorem profile_update_guarded (updateAccepted : Updates -> Users -> bool)
  (user : Identity) (updates : Updates) (users : Users) :
  let users' := snd (PUT_me updateAccepted user updates users) in
  map guarded users' = map guarded users /\
  (forall oid, castObjectId (id user) = Some oid ->
     filter (fun u => negb (String.eqb (user_id u) oid)) users' =
     filter (fun u => negb (String.eqb (user_id u) oid)) users).
Proof.
  cbn zeta. unfold PUT_me, findByIdAndUpdate.
  destruct (castObjectId (id user)) as [oid|]; [|split; [reflexivity|discriminate]].
  destruct (updateAccepted (filterUpdates updates) users);
    [|split; reflexivity].
  destruct (updateById oid (filterUpdates updates) users)
    as [[u' users']|] eqn:U; cbn [snd]; [|split; reflexivity].
  destruct (updateById_shape _ _ _ _ _ U)
    as (before & u & after & -> & -> & I & F & B).
  subst u'. split.
  - rewrite !map_app. cbn [map]. now rewrite filtered_guarded.
  - intros o H. inversion H; subst o. rewrite !filter_app. cbn [filter].
    assert (G : user_id (fold_left setUserPath (filterUpdates updates) u)
                = user_id u).
    { pose proof (filtered_guarded updates u) as G. unfold guarded in G.
      now inversion G. }
    rewrite G, I. now rewrite String.eqb_refl.
Qed.

Lemma findUser_updated (before after : Users) (u' : User) (oid : ObjectId) :
  user_id u' = oid ->
  (forall x, In x before -> user_id x <> oid) ->
  List.find (fun u => String.eqb (user_id u) oid) (before ++ u' :: after)
  = Some u'.
Proof.
  intros I B. induction before as [|x rest IH]; cbn [app List.find].
  - now rewrite I, String.eqb_refl.
  - replace (String.eqb (user_id x) oid) with false.
    + apply IH. intros y Hy. apply B. now right.
    + symmetry. apply String.eqb_neq. apply B. now left.
Qed.

(** X23: what a profile update answers is what is stored: when [PUT /me]
    returns a user, it is the stored user with the allowed keys of the
    body written over it, password left out, and a [GET /me] of the same
    caller right after returns the same. *)
Theorem profile_round_trip (updateAccepted : Updates -> Users -> bool)
  (user : Identity) (updates : Updates) (users : Users) (a : Account) :
  reply_data (fst (PUT_me updateAccepted user updates users)) =
    Some (Some a) ->
  (exists u,
     In u users /\ Some (user_id u) = castObjectId (id user) /\
     a = withoutPassword
           (fold_left setUserPath (filterUpdates updates) u)) /\
  fst (GET_me user (snd (PUT_me updateAccepted user updates users))) =
    mkReply 200 true None (Some (Some a)).
Proof.
  unfold PUT_me, findByIdAndUpdate, GET_me, findUserById.
  destruct (castObjectId (id user)) as [oid|]; [|discriminate].
  destruct (updateAccepted (filterUpdates updates) users); [|discriminate].
  destruct (updateById oid (filterUpdates updates) users)
    as [[u' users']|] eqn:U; cbn [fst snd reply_data option_map];
    [|discriminate].
  intros H. inversion H; subst a. clear H.
  destruct (updateById_shape _ _ _ _ _ U)
    as (before & u & after & -> & -> & I & F & B).
  assert (G : user_id u' = oid).
  { rewrite F. pose proof (filtered_guarded updates u) as G.
    unfold guarded in G. inversion G. congruence. }
  split.
  - exists u. repeat split.
    + apply in_or_app. right. now left.
    + now rewrite I.
    + now rewrite F.
  - now rewrite (findUser_updated before after u' oid G B).
Qed.

(** X24: the profile handlers do not tell a missing user from a present
    one: with a well-formed id that no user has, [GET /me] and an accepted
    [PUT /me] are answered 200 with [data: null] and store nothing; with an
    id that is no ObjectId both are answered 500. *)
Theorem me_without_user (updateAccepted : Updates -> Users -> bool)
  (user : Identity) (updates : Updates) (users : Users) :
  (castObjectId (id user) = None ->
   GET_me user users = (replyError 500 "Server error", users) /\
   PUT_me updateAccepted user updates users =
     (replyError 500 "Server error", users)) /\
  (forall oid,
     castObjectId (id user) = Some oid ->
     (forall u, In u users -> user_id u <> oid) ->
     GET_me user users = (mkReply 200 true None (Some None), users) /\
     (updateAccepted (filterUpdates updates) users = true ->
      PUT_me updateAccepted user updates users =
        (mkReply 200 true (Some "Profile updated successfully") (Some None),
         users))).
Proof.
  split.
  - intros C. unfold GET_me, PUT_me, findUserById, findByIdAndUpdate.
    now rewrite C.
  - intros oid C A.
    assert (F : List.find (fun u => String.eqb (user_id u) oid) users = None).
    { destruct (List.find _ users) as [u|] eqn:F; [|reflexivity].
      apply find_some in F. destruct F as [Hin E].
      apply String.eqb_eq in E. now apply A in Hin. }
    assert (U : forall ups, updateById oid ups users = None).
    { intros ups. clear F. induction users as [|x rest IH]; [reflexivity|].
      cbn [updateById].
      replace (String.eqb (user_id x) oid) with false
        by (symmetry; apply String.eqb_neq; apply A; now left).
      rewrite IH; [reflexivity|]. intros u Hu. apply A. now right. }
    split.
    + unfold GET_me, findUserById. now rewrite C, F.
    + intros V. unfold PUT_me, findByIdAndUpdate. now rewrite C, V, U.
Qed.

(** * The further properties at work *)

(** The first create of the sample history. *)
Lemma create_appends_one_witness :
  exists b,
    snd firstPost = [] ++ [b] /\ res_data (fst firstPost) = Item b /\
    _id b = noticeId /\ lookup [] noticeId = None /\
    castObjectId (id alice) = createdBy b /\ createdBy b <> None /\
    views b = Some 0 /\ priority b = Some 0 /\
    createdAt b = 100 /\ updatedAt b = 100 /\
    validate b = true /\
    status b = Some (if isExpired 100 b then "expired" else "active").
Proof.
  apply (create_appends_one 100 noticeId alice notice []
           (fst firstPost) (snd firstPost)); run_it.
Defined.

(** [alice] deletes her notice from a collection of two. *)
Lemma delete_then_gone_witness :
  List.length (run twoNotes) = S (List.length (snd removal)) /\
  (forall now, GET_id now noticeId (snd removal) = (notFound, snd removal)) /\
  (forall now other updates,
     PUT_id now noticeId other updates (snd removal) =
       (notFound, snd removal)) /\
  (forall other,
     DELETE_id noticeId other (snd removal) = (notFound, snd removal)) /\
  (forall oid', castObjectId noticeId <> Some oid' ->
     lookup (snd removal) oid' = lookup (run twoNotes) oid').
Proof.
  apply (delete_then_gone twoNotes noticeId alice (fst removal)); run_it.
Defined.

(** An admin deletes the notice of [alice]. *)
Lemma owner_or_admin_allowed_witness :
  DELETE_id noticeId (mkIdentity (id bob) "admin") board =
    (json 200 true (Some "Broadcast deleted successfully") NoData,
     deleteOne (_id posted) board) /\
  res_status
    (fst (PUT_id 120 noticeId (mkIdentity (id bob) "admin")
            [Key_status (Value "archived")] board)) <> 403 /\
  res_status
    (fst (PUT_id 120 noticeId (mkIdentity (id bob) "admin")
            [Key_status (Value "archived")] board)) <> 404.
Proof.
  apply (owner_or_admin_allowed 120 noticeId (mkIdentity (id bob) "admin")
           [Key_status (Value "archived")] board posted (id alice));
    [run_it|run_it|right; reflexivity].
Defined.

(** [alice] changes the title of her notice and nothing else. *)
Lemma update_touches_named_paths_witness :
  exists b',
    lookup (snd retitle) (_id posted) = Some b' /\
    res_data (fst retitle) = Item b' /\
    _id b' = _id posted /\
    (hasKey "title" [Key_title (Value "Lift repaired")] = false ->
     title b' = title posted) /\
    (hasKey "message" [Key_title (Value "Lift repaired")] = false ->
     message b' = message posted) /\
    (hasKey "urgency" [Key_title (Value "Lift repaired")] = false ->
     urgency b' = urgency posted) /\
    (hasKey "type" [Key_title (Value "Lift repaired")] = false ->
     type b' = type posted) /\
    (hasKey "tags" [Key_title (Value "Lift repaired")] = false ->
     tags b' = tags posted) /\
    (hasKey "createdBy" [Key_title (Value "Lift repaired")] = false ->
     createdBy b' = createdBy posted) /\
    (hasKey "expiryDate" [Key_title (Value "Lift repaired")] = false ->
     expiryDate b' = expiryDate posted) /\
    (hasKey "views" [Key_title (Value "Lift repaired")] = false ->
     views b' = views posted) /\
    (hasKey "priority" [Key_title (Value "Lift repaired")] = false ->
     priority b' = priority posted) /\
    (hasKey "status" [Key_title (Value "Lift repaired")] = false ->
     status b' =
       if isExpired 120 b' then Some "expired" else status posted) /\
    List.length (snd retitle) = List.length (run twoNotes) /\
    (forall oid', oid' <> _id posted ->
       lookup (snd retitle) oid' = lookup (run twoNotes) oid').
Proof.
  apply (update_touches_named_paths 120 noticeId alice
           [Key_title (Value "Lift repaired")] (run twoNotes)
           (fst retitle) (snd retitle) posted); run_it.
Defined.

(** [alice] gives her notice to [bob]. *)
Lemma ownership_given_away_witness :
  exists b' s',
    PUT_id 120 noticeId alice [Key_createdBy (Value (id bob))] board =
      (json 200 true (Some "Broadcast updated successfully") (Item b'), s') /\
    lookup s' (_id posted) = Some b' /\ createdBy b' = Some (id bob) /\
    (forall now' updates,
       PUT_id now' noticeId alice updates s' = (notAuthorized, s')) /\
    DELETE_id noticeId alice s' = (notAuthorized, s') /\
    (forall role_,
       res_status (fst (DELETE_id noticeId (mkIdentity (id bob) role_) s'))
       = 200).
Proof.
  apply (ownership_given_away [Create 100 noticeId alice notice] 120
           noticeId alice (id bob) posted); run_it.
Defined.

(** The lapsed notice stays [expired] when its expiry moves to 900. *)
Lemma expired_stays_expired_witness :
  exists b',
    lookup (snd extension) (_id (hd (defaults "") (run lapsed))) = Some b' /\
    status b' = Some "expired".
Proof.
  apply (expired_stays_expired 300 noticeId alice
           [Key_expiryDate (Value 900)] (run lapsed)
           (fst extension) (snd extension) (hd (defaults "") (run lapsed)));
    run_it.
Defined.



(** The notice after the sample history of reads and updates. *)
Lemma stored_wellformed_witness :
  exists t m u ty st o,
    title (hd (defaults "") (run counted)) = Some t /\ t <> "" /\
    (String.length t <= 200)%nat /\
    message (hd (defaults "") (run counted)) = Some m /\ m <> "" /\
    (String.length m <= 5000)%nat /\
    urgency (hd (defaults "") (run counted)) = Some u /\ In u urgencyEnum /\
    type (hd (defaults "") (run counted)) = Some ty /\ In ty typeEnum /\
    status (hd (defaults "") (run counted)) = Some st /\ In st statusEnum /\
    createdBy (hd (defaults "") (run counted)) = Some o.
Proof.
  apply (stored_wellformed counted (hd (defaults "") (run counted))).
  vm_compute. left. reflexivity.
Defined.

(** The three pages of the forty-five memos, end to end. *)
Lemma pages_tile_witness :
  List.concat
    (map
       (fun n =>
          itemsOf
            (fst (GET_list dotRegex (atPage (pageOf 1) (Z.of_nat n)) fortyFive)))
       (seq 1 3))
  = sortDocs newestFirst
      (filter (matches (mkQuery None None (Some "active") None)) fortyFive).
Proof.
  assert (N : countDocuments (mkQuery None None (Some "active") None)
                fortyFive + 20 <= 2 ^ 53) by (vm_compute; discriminate).
  assert (T : tieFree newestFirst
                (filter (matches (mkQuery None None (Some "active") None))
                   fortyFive) = true) by (vm_compute; reflexivity).
  pose proof (proj2 (pages_tile dotRegex (pageOf 1) fortyFive None
                       eq_refl eq_refl N T)) as H.
  vm_compute in H. vm_compute. exact H.
Defined.

(** Page 4 of the forty-five memos. *)
Lemma page_beyond_last_is_empty_witness :
  GET_list dotRegex (pageOf 4) fortyFive =
    (json 200 true None
       (Items []
          (mkPagination 4 20
             (countDocuments (mkQuery None None (Some "active") None)
                fortyFive)
             (Some
                (ceilDiv
                   (countDocuments (mkQuery None None (Some "active") None)
                      fortyFive) 20)))), fortyFive).
Proof.
  apply (page_beyond_last_is_empty dotRegex (pageOf 4) fortyFive None);
    run_it.
Defined.

(** Page 3 of the forty-five memos comes newest first. *)
Lemma listing_in_order_witness :
  Sorted (inOrder (orDefault newestFirst (q_sort (pageOf 3))))
    (itemsOf (fst (GET_list dotRegex (pageOf 3) fortyFive))) /\
  (q_sort (pageOf 3) = None ->
   Sorted (fun a b => createdAt b <= createdAt a)
     (itemsOf (fst (GET_list dotRegex (pageOf 3) fortyFive)))).
Proof.
  apply (listing_in_order dotRegex (pageOf 3) fortyFive
           (itemsOf (fst (GET_list dotRegex (pageOf 3) fortyFive)))
           (paginationOf (fst (GET_list dotRegex (pageOf 3) fortyFive)))).
  vm_compute. reflexivity.
Defined.

(** A login of [dave] at time 5. *)
Lemma login_touches_lastLogin_only_witness :
  map (set_lastLogin None)
    (snd (POST_login plainPassword 5 "dave@example.org" "hunter2" members))
  = map (set_lastLogin None) members /\
  (res_status
     (fst (POST_login plainPassword 5 "dave@example.org" "hunter2" members))
     <> 200 ->
   snd (POST_login plainPassword 5 "dave@example.org" "hunter2" members)
   = members).
Proof.
  apply (login_touches_lastLogin_only plainPassword 5 "dave@example.org"
           "hunter2" members).
  vm_compute. repeat constructor; simpl; intuition discriminate.
Defined.

(** A login of [dave] at time 61500. *)
Lemma login_succeeds_witness :
  exists t users',
    POST_login plainPassword 61500 "dave@example.org" "hunter2" members =
      (json 200 true (Some "Login successful")
         (Session t (profile (set_lastLogin (Some 61500) dave))), users') /\
    token_id t = user_id dave /\ token_role t = role dave /\
    exp t = iat t + 604800 /\
    findOne users' "dave@example.org" =
      Some (set_lastLogin (Some 61500) dave).
Proof.
  apply (login_succeeds plainPassword 61500 "dave@example.org" "hunter2"
           members dave); try (vm_compute; reflexivity).
  vm_compute. repeat constructor; simpl; intuition discriminate.
Defined.

(** A registration under the email of [dave]. *)
Lemma register_refuses_taken_witness :
  POST_register enroll 5 "david" "dave@example.org" "pw" members =
    (replyError 400 "User already exists", members).
Proof.
  apply (register_refuses_taken enroll 5 "david" "dave@example.org" "pw"
           members dave).
  - right. left. reflexivity.
  - left. reflexivity.
Defined.

(** [dave] asks for a new name, the role of an admin and a new password. *)
Lemma profile_round_trip_witness :
  (exists u,
     In u members /\ Some (user_id u) = castObjectId (id daveIdentity) /\
     withoutPassword (set_username "root" dave) =
     withoutPassword (fold_left setUserPath (filterUpdates grab) u)) /\
  fst (GET_me daveIdentity (snd (PUT_me acceptAll daveIdentity grab members)))
  = mkReply 200 true None (Some (Some (withoutPassword (set_username "root" dave)))).
Proof.
  apply (profile_round_trip acceptAll daveIdentity grab members
           (withoutPassword (set_username "root" dave))).
  vm_compute. reflexivity.
Defined.
